(** * pyfback: position and trade accounting

    A shallow embedding of the accounting core of the back-testing
    framework: [strategy/position.py] ([Position], [PositionManager]),
    [engine/trade.py] ([Trade]) and [strategy/signals.py] ([Signal]).

    Conventions of the embedding.
    - Python numbers ([int] and [float] alike) are exact rationals [Qc]:
      finite values, no rounding.  A NaN, an infinity and the rounding of
      [float] arithmetic are outside that model; a statement that one of
      them decides is made over binary64 in the modules [F64...].
    - A method of a mutable object is a function from the object's state
      to the state it leaves behind together with what the call did:
      return a value or raise.  The state is reported on a raise too, so
      that a mutation made before the raise stays visible.
    - [dt.datetime.now()] is an input: a method that reads the clock takes
      the reading as its argument [now] (nested calls share it). *)

From Stdlib Require Import QArith Qcanon.
From Stdlib Require Qcabs.
From Stdlib Require Import PrimFloat.
From stdpp Require Import base numbers strings gmap.

Local Open Scope Qc_scope.

(** ** Numbers and time *)

Definition num (z : Z) : Qc := Qc_of_Z z.

Definition time : Type := Z.

(** ** Exceptions *)

(** One constructor per [raise ValueError(...)] of the three modules. *)
Inductive message : Type :=
  | position_quantity_negative           (* position.py:37 *)
  | position_avg_price_not_positive      (* position.py:40 *)
  | position_current_price_not_positive  (* position.py:43 *)
  | add_quantity_not_positive            (* position.py:109 *)
  | reduce_quantity_not_positive         (* position.py:135 *)
  | reduce_quantity_exceeds_position     (* position.py:138 *)
  | trade_quantity_not_positive          (* trade.py:52 *)
  | trade_price_not_positive             (* trade.py:55 *)
  | trade_commission_negative            (* trade.py:58 *)
  | signal_quantity_zero                 (* signals.py:42 *)
  | signal_limit_price_missing           (* signals.py:45 *)
  | signal_stop_price_not_positive       (* signals.py:48 *)
  | signal_take_profit_not_positive.     (* signals.py:51 *)

Inductive exn : Type :=
  | ValueError (msg : message)
  | ZeroDivisionError
  | TypeError
  | KeyError (key : string).

(** The spec's error taxonomy names the failure of an oversized reduce
    [InsufficientPosition]; in the source it is the [ValueError] raised at
    position.py:138. *)
Definition InsufficientPosition : exn :=
  ValueError reduce_quantity_exceeds_position.

Inductive outcome (A : Type) : Type :=
  | Return (a : A)
  | Raise (e : exn).
Arguments Return {A} a.
Arguments Raise {A} e.

Definition raises {A} (o : outcome A) : bool :=
  match o with Return _ => false | Raise _ => true end.

(** ** Methods of a mutable object *)

Definition method (S A : Type) : Type := S -> S * outcome A.

Definition ret {S A} (a : A) : method S A := fun s => (s, Return a).

Definition throw {S A} (e : exn) : method S A := fun s => (s, Raise e).

Definition bind {S A B} (m : method S A) (k : A -> method S B) : method S B :=
  fun s =>
    match m s with
    | (s', Return a) => k a s'
    | (s', Raise e) => (s', Raise e)
    end.

Definition get {S} : method S S := fun s => (s, Return s).

Definition modify {S} (f : S -> S) : method S unit := fun s => (f s, Return tt).

Declare Scope method_scope.
Delimit Scope method_scope with method.
Notation "'let*' x := m 'in' k" := (bind m (fun x => k))
  (at level 10, x name, m at level 100, k at level 200) : method_scope.
Notation "m ;;; k" := (bind m (fun _ => k))
  (at level 100, k at level 200, right associativity) : method_scope.

(** Python's [x / y] on numbers, without the rounding of [float]. *)
Definition divide {S} (x y : Qc) : method S Qc :=
  if decide (y = 0) then throw ZeroDivisionError else ret (x / y).

(** Python's [sum] of numbers: from 0, left to right. *)
Definition sum_numbers (xs : list Qc) : Qc := fold_left Qcplus xs 0.

(** Python's [l[k:]]: a negative [k] counts from the end, and a bound
    outside the list is clamped. *)
Definition slice_from {A} (k : Z) (l : list A) : list A :=
  if decide (0 <= k)%Z then drop (Z.to_nat k) l
  else drop (length l - Z.to_nat (- k)) l.

(** ** strategy/position.py *)

Inductive PositionSide : Type := LONG | SHORT | FLAT.

Global Instance PositionSide_eq_dec : EqDecision PositionSide.
Proof. solve_decision. Defined.

Module Position.

Record t : Type := mk {
  symbol : string;
  side : PositionSide;
  quantity : Qc;
  avg_price : Qc;
  current_price : Qc;
  timestamp : time;
  unrealized_pnl : Qc;
  realized_pnl : Qc
}.

(** Attribute assignments [self.f = v]. *)
Definition set_side (v : PositionSide) (self : t) : t :=
  mk (symbol self) v (quantity self) (avg_price self) (current_price self)
     (timestamp self) (unrealized_pnl self) (realized_pnl self).
Definition set_quantity (v : Qc) (self : t) : t :=
  mk (symbol self) (side self) v (avg_price self) (current_price self)
     (timestamp self) (unrealized_pnl self) (realized_pnl self).
Definition set_avg_price (v : Qc) (self : t) : t :=
  mk (symbol self) (side self) (quantity self) v (current_price self)
     (timestamp self) (unrealized_pnl self) (realized_pnl self).
Definition set_current_price (v : Qc) (self : t) : t :=
  mk (symbol self) (side self) (quantity self) (avg_price self) v
     (timestamp self) (unrealized_pnl self) (realized_pnl self).
Definition set_timestamp (v : time) (self : t) : t :=
  mk (symbol self) (side self) (quantity self) (avg_price self)
     (current_price self) v (unrealized_pnl self) (realized_pnl self).
Definition set_unrealized_pnl (v : Qc) (self : t) : t :=
  mk (symbol self) (side self) (quantity self) (avg_price self)
     (current_price self) (timestamp self) v (realized_pnl self).
Definition set_realized_pnl (v : Qc) (self : t) : t :=
  mk (symbol self) (side self) (quantity self) (avg_price self)
     (current_price self) (timestamp self) (unrealized_pnl self) v.

(** [__post_init__] (position.py:34-43). *)
Definition post_init (self : t) : outcome unit :=
  if decide (quantity self < 0) then
    Raise (ValueError position_quantity_negative)
  else if decide (avg_price self <= 0) then
    Raise (ValueError position_avg_price_not_positive)
  else if decide (current_price self <= 0) then
    Raise (ValueError position_current_price_not_positive)
  else Return tt.

(** The dataclass constructor: the generated [__init__] stores the
    fields ([unrealized_pnl] and [realized_pnl] default to 0.0) and then
    runs [__post_init__]; a raise there means no object is returned. *)
Definition init (symbol : string) (side : PositionSide)
    (quantity avg_price current_price : Qc) (timestamp : time) : outcome t :=
  let self := mk symbol side quantity avg_price current_price timestamp 0 0 in
  match post_init self with
  | Return _ => Return self
  | Raise e => Raise e
  end.

Definition is_long (self : t) : bool :=
  bool_decide (side self = LONG) && bool_decide (0 < quantity self).

Definition is_short (self : t) : bool :=
  bool_decide (side self = SHORT) && bool_decide (0 < quantity self).

Definition is_flat (self : t) : bool :=
  bool_decide (side self = FLAT) || bool_decide (quantity self = 0).

Definition market_value (self : t) : Qc := quantity self * current_price self.

Definition cost_value (self : t) : Qc := quantity self * avg_price self.

(** [calculate_unrealized_pnl] (position.py:70-92); [current_price or
    self.current_price] takes the attribute when the argument is [None]
    or zero. *)
Definition calculate_unrealized_pnl (arg : option Qc) (self : t) : Qc :=
  let price :=
    match arg with
    | Some p => if decide (p = 0) then current_price self else p
    | None => current_price self
    end in
  if is_flat self then 0
  else
    let price_diff := price - avg_price self in
    if is_long self then quantity self * price_diff
    else quantity self * (- price_diff).

(** [update_price] (position.py:94-98). *)
Definition update_price (now : time) (new_price : Qc) (self : t) : t :=
  let self := set_current_price new_price self in
  let self := set_unrealized_pnl (calculate_unrealized_pnl None self) self in
  set_timestamp now self.

Local Open Scope method_scope.

(** [add_position] (position.py:100-121). *)
Definition add_position (now : time) (qty price : Qc) : method t unit :=
  if decide (qty <= 0) then throw (ValueError add_quantity_not_positive)
  else
    (let* self := get in
     if is_flat self then
       modify (set_quantity qty) ;;;
       modify (set_avg_price price)
     else
       let total_cost := cost_value self + qty * price in
       modify (set_quantity (quantity self + qty)) ;;;
       let* self := get in
       let* avg := divide total_cost (quantity self) in
       modify (set_avg_price avg)) ;;;
    modify (set_timestamp now).

(** The profit and loss [reduce_position] realizes (position.py:141-145). *)
Definition realized_on_reduce (qty price : Qc) (self : t) : Qc :=
  let price_diff := price - avg_price self in
  if is_long self then qty * price_diff else qty * (- price_diff).

(** [reduce_position] (position.py:123-155). *)
Definition reduce_position (now : time) (qty price : Qc) : method t Qc :=
  let* self := get in
  if decide (qty <= 0) then throw (ValueError reduce_quantity_not_positive)
  else if decide (quantity self < qty) then
    throw (ValueError reduce_quantity_exceeds_position)
  else
    let pnl := realized_on_reduce qty price self in
    modify (set_realized_pnl (realized_pnl self + pnl)) ;;;
    modify (set_quantity (quantity self - qty)) ;;;
    let* self := get in
    (if decide (quantity self = 0) then modify (set_side FLAT) else ret tt) ;;;
    modify (set_timestamp now) ;;;
    ret pnl.

(** [close_position] (position.py:157-170). *)
Definition close_position (now : time) (price : Qc) : method t Qc :=
  let* self := get in
  if is_flat self then ret 0
  else reduce_position now (quantity self) price.

(** [reverse_position] (position.py:172-193). *)
Definition reverse_position (now : time) (new_quantity price : Qc)
    : method t Qc :=
  let* pnl := close_position now price in
  (if decide (0 < new_quantity) then
     modify (set_quantity new_quantity) ;;;
     modify (set_avg_price price) ;;;
     let* self := get in
     modify (set_side (if decide (side self = LONG) then SHORT else LONG)) ;;;
     modify (set_timestamp now)
   else ret tt) ;;;
  ret pnl.

(** The factories (position.py:221-257). *)
Definition create_long_position (now : time) (symbol : string)
    (quantity price : Qc) : outcome t :=
  init symbol LONG quantity price price now.

Definition create_short_position (now : time) (symbol : string)
    (quantity price : Qc) : outcome t :=
  init symbol SHORT quantity price price now.

Definition create_flat_position (now : time) (symbol : string) : outcome t :=
  init symbol FLAT 0 0 0 now.

End Position.

(** ** PositionManager (position.py:268-377) *)

Module PositionManager.

Local Open Scope method_scope.

(** The manager's only attribute is [self.positions], a dict from contract
    code to [Position] object.  A [Position] held by the dict is mutated in
    place: running a [Position] method on the entry of [symbol] leaves the
    method's final state in the dict, whether it returned or raised. *)
Definition on_position {A} (symbol : string) (m : method Position.t A)
    : method (gmap string Position.t) A :=
  fun positions =>
    match positions !! symbol with
    | Some position =>
        let '(position', r) := m position in
        (<[symbol := position']> positions, r)
    | None => (positions, Raise (KeyError symbol))
    end.

(** [if symbol not in self.positions: self.positions[symbol] =
    Position.create_flat_position(symbol)] (position.py:289-290, 304-305). *)
Definition create_missing (now : time) (symbol : string)
    : method (gmap string Position.t) unit :=
  fun positions =>
    match positions !! symbol with
    | Some _ => (positions, Return tt)
    | None =>
        match Position.create_flat_position now symbol with
        | Return position => (<[symbol := position]> positions, Return tt)
        | Raise e => (positions, Raise e)
        end
    end.

(** [get_position] (position.py:279-291). *)
Definition get_position (now : time) (symbol : string)
    : method (gmap string Position.t) Position.t :=
  create_missing now symbol ;;;
  on_position symbol get.

(** The branches of [update_position] (position.py:309-332), run on the
    [Position] object bound to [position]. *)
Definition same_side_update (now : time) (quantity : Qc) (side : PositionSide)
    (price : Qc) : method Position.t unit :=
  modify (Position.set_side side) ;;;
  let* position := get in
  if Position.is_flat position then
    modify (Position.set_quantity quantity) ;;;
    modify (Position.set_avg_price price)
  else
    Position.add_position now (quantity - Position.quantity position) price.

Definition update_held (now : time) (quantity : Qc) (side : PositionSide)
    (price : Qc) : method Position.t unit :=
  (let* position := get in
   match side with
   | FLAT =>
       let* _ := Position.close_position now price in ret tt
   | LONG =>
       if Position.is_short position then
         let* _ := Position.reverse_position now quantity price in ret tt
       else same_side_update now quantity LONG price
   | SHORT =>
       if Position.is_long position then
         let* _ := Position.reverse_position now quantity price in ret tt
       else same_side_update now quantity SHORT price
   end) ;;;
  modify (Position.update_price now price).

(** [update_position] (position.py:293-332). *)
Definition update_position (now : time) (symbol : string) (quantity : Qc)
    (side : PositionSide) (price : Qc) : method (gmap string Position.t) unit :=
  create_missing now symbol ;;;
  on_position symbol (update_held now quantity side price).

(** [update_prices] (position.py:334-338), run over the items of the
    [prices] dict: a symbol the manager does not hold is skipped.  The
    items are taken in the order of the map; each symbol occurs once, so
    the order does not matter. *)
Fixpoint update_price_items (now : time) (items : list (string * Qc))
    (positions : gmap string Position.t) : gmap string Position.t :=
  match items with
  | [] => positions
  | (symbol, price) :: rest =>
      update_price_items now rest
        (match positions !! symbol with
         | Some position =>
             <[symbol := Position.update_price now price position]> positions
         | None => positions
         end)
  end.

Definition update_prices (now : time) (prices : gmap string Qc)
    (positions : gmap string Position.t) : gmap string Position.t :=
  update_price_items now (map_to_list prices) positions.

End PositionManager.

(** ** engine/trade.py *)

Inductive TradeType : Type := BUY | SELL | CLOSE_LONG | CLOSE_SHORT.

Inductive TradeStatus : Type := PENDING | FILLED | CANCELLED | REJECTED.

Global Instance TradeStatus_eq_dec : EqDecision TradeStatus.
Proof. solve_decision. Defined.

Global Instance TradeType_eq_dec : EqDecision TradeType.
Proof. solve_decision. Defined.

(** The three statuses the spec calls terminal. *)
Definition is_terminal (s : TradeStatus) : bool :=
  match s with PENDING => false | _ => true end.

Module Trade.

Local Open Scope method_scope.

Record t : Type := mk {
  trade_id : string;
  symbol : string;
  trade_type : TradeType;
  quantity : Qc;
  price : Qc;
  timestamp : time;
  status : TradeStatus;
  commission : Qc;
  slippage : Qc;
  realized_pnl : Qc;
  order_price : option Qc;
  fill_time : option time;
  metadata : option (gmap string string)
}.

Definition set_price (v : Qc) (self : t) : t :=
  mk (trade_id self) (symbol self) (trade_type self) (quantity self) v
     (timestamp self) (status self) (commission self) (slippage self)
     (realized_pnl self) (order_price self) (fill_time self) (metadata self).
Definition set_status (v : TradeStatus) (self : t) : t :=
  mk (trade_id self) (symbol self) (trade_type self) (quantity self)
     (price self) (timestamp self) v (commission self) (slippage self)
     (realized_pnl self) (order_price self) (fill_time self) (metadata self).
Definition set_fill_time (v : option time) (self : t) : t :=
  mk (trade_id self) (symbol self) (trade_type self) (quantity self)
     (price self) (timestamp self) (status self) (commission self)
     (slippage self) (realized_pnl self) (order_price self) v (metadata self).
Definition set_metadata (v : option (gmap string string)) (self : t) : t :=
  mk (trade_id self) (symbol self) (trade_type self) (quantity self)
     (price self) (timestamp self) (status self) (commission self)
     (slippage self) (realized_pnl self) (order_price self) (fill_time self) v.

(** [__post_init__] (trade.py:49-58). *)
Definition post_init (self : t) : outcome unit :=
  if decide (quantity self <= 0) then
    Raise (ValueError trade_quantity_not_positive)
  else if decide (price self <= 0) then
    Raise (ValueError trade_price_not_positive)
  else if decide (commission self < 0) then
    Raise (ValueError trade_commission_negative)
  else Return tt.

(** The dataclass constructor: store the thirteen fields, then validate. *)
Definition init (self : t) : outcome t :=
  match post_init self with
  | Return _ => Return self
  | Raise e => Raise e
  end.

(** [trade_value] and [total_cost] (trade.py:60-69). *)
Definition trade_value (self : t) : Qc := quantity self * price self.

Definition total_cost (self : t) : Qc :=
  let slippage_cost := quantity self * Qcabs.Qcabs (slippage self) in
  trade_value self + commission self + slippage_cost.

(** [fill] (trade.py:106-119). *)
Definition fill (now : time) (fill_price : option Qc)
    (fill_time : option time) : method t unit :=
  (match fill_price with
   | Some p => modify (set_price p)
   | None => ret tt
   end) ;;;
  modify (set_fill_time (Some (default now fill_time))) ;;;
  modify (set_status FILLED).

(** [cancel] (trade.py:121-123). *)
Definition cancel : method t unit := modify (set_status CANCELLED).

(** [reject] (trade.py:125-134); item assignment on a [metadata] that is
    [None] is a [TypeError]. *)
Definition reject (reason : string) : method t unit :=
  modify (set_status REJECTED) ;;;
  if decide (reason = "") then ret tt
  else
    let* self := get in
    match metadata self with
    | Some d => modify (set_metadata (Some (<["reject_reason" := reason]> d)))
    | None => throw TypeError
    end.

(** The type and status tests (trade.py:71-104). *)
Definition is_buy (self : t) : bool := bool_decide (trade_type self = BUY).

Definition is_sell (self : t) : bool := bool_decide (trade_type self = SELL).

Definition is_close (self : t) : bool :=
  bool_decide (trade_type self = CLOSE_LONG)
  || bool_decide (trade_type self = CLOSE_SHORT).

Definition is_long_side (self : t) : bool :=
  bool_decide (trade_type self = BUY)
  || bool_decide (trade_type self = CLOSE_SHORT).

Definition is_short_side (self : t) : bool :=
  bool_decide (trade_type self = SELL)
  || bool_decide (trade_type self = CLOSE_LONG).

Definition is_filled (self : t) : bool := bool_decide (status self = FILLED).

Definition is_pending (self : t) : bool := bool_decide (status self = PENDING).

(** [calculate_pnl] (trade.py:136-149). *)
Definition calculate_pnl (exit_price : Qc) (self : t) : Qc :=
  if is_long_side self then quantity self * (exit_price - price self)
  else quantity self * (price self - exit_price).

End Trade.

(** ** TradeManager (trade.py:259-353)

    The manager holds the [Trade] objects it was given in a dict keyed by
    [trade_id] and in a list in order of arrival.  A trade is entered with
    the state it has when [add_trade] runs. *)

Module TradeManager.

Record t : Type := mk {
  trades : gmap string Trade.t;
  trade_history : list Trade.t
}.

(** [__init__] (trade.py:266-269). *)
Definition init : t := mk ∅ [].

(** [add_trade] (trade.py:271-274). *)
Definition add_trade (trade : Trade.t) (self : t) : t :=
  mk (<[Trade.trade_id trade := trade]> (trades self))
     (trade_history self ++ [trade]).

(** [get_trade] (trade.py:276-278). *)
Definition get_trade (trade_id : string) (self : t) : option Trade.t :=
  trades self !! trade_id.

(** The list queries (trade.py:280-298). *)
Definition get_trades_by_symbol (symbol : string) (self : t) : list Trade.t :=
  List.filter (fun trade => bool_decide (Trade.symbol trade = symbol))
              (trade_history self).

Definition get_filled_trades (self : t) : list Trade.t :=
  List.filter Trade.is_filled (trade_history self).

Definition get_pending_trades (self : t) : list Trade.t :=
  List.filter Trade.is_pending (trade_history self).

Definition get_trades_by_type (trade_type : TradeType) (self : t)
    : list Trade.t :=
  List.filter (fun trade => bool_decide (Trade.trade_type trade = trade_type))
              (trade_history self).

(** The aggregates (trade.py:300-314). *)
Definition get_total_commission (self : t) : Qc :=
  sum_numbers (map Trade.commission (get_filled_trades self)).

Definition get_total_realized_pnl (self : t) : Qc :=
  sum_numbers (map Trade.realized_pnl (get_filled_trades self)).

Definition get_trade_count (self : t) : nat := length (trade_history self).

Definition get_filled_trade_count (self : t) : nat :=
  length (get_filled_trades self).

(** [clear_trades] (trade.py:316-319). *)
Definition clear_trades (self : t) : t := mk ∅ [].

(** [get_trade_summary] (trade.py:331-345). *)
Record summary : Type := mk_summary {
  total_trades : nat;
  filled_trades : nat;
  pending_trades : nat;
  total_commission : Qc;
  total_realized_pnl : Qc;
  buy_trades : nat;
  sell_trades : nat;
  close_long_trades : nat;
  close_short_trades : nat
}.

Definition get_trade_summary (self : t) : summary :=
  let filled := get_filled_trades self in
  mk_summary (length (trade_history self)) (length filled)
    (length (get_pending_trades self))
    (get_total_commission self) (get_total_realized_pnl self)
    (length (get_trades_by_type BUY self))
    (length (get_trades_by_type SELL self))
    (length (get_trades_by_type CLOSE_LONG self))
    (length (get_trades_by_type CLOSE_SHORT self)).

End TradeManager.

(** ** strategy/signals.py *)

Inductive SignalType : Type :=
  | SIG_BUY | SIG_SELL | SIG_HOLD | SIG_CLOSE | SIG_CLOSE_LONG | SIG_CLOSE_SHORT.

Module Signal.

Record t : Type := mk {
  symbol : string;
  signal_type : SignalType;
  quantity : Qc;
  timestamp : time;
  price_type : string;
  limit_price : option Qc;
  stop_price : option Qc;
  take_profit : option Qc;
  priority : Z;
  metadata : option (gmap string string)
}.

(** [x is not None and x <= 0]. *)
Definition given_not_positive (x : option Qc) : bool :=
  match x with
  | Some p => bool_decide (p <= 0)
  | None => false
  end.

(** [__post_init__] (signals.py:39-51). *)
Definition post_init (self : t) : outcome unit :=
  if decide (quantity self = 0) then
    Raise (ValueError signal_quantity_zero)
  else if bool_decide (price_type self = "limit")
          && bool_decide (limit_price self = None) then
    Raise (ValueError signal_limit_price_missing)
  else if given_not_positive (stop_price self) then
    Raise (ValueError signal_stop_price_not_positive)
  else if given_not_positive (take_profit self) then
    Raise (ValueError signal_take_profit_not_positive)
  else Return tt.

Definition init (self : t) : outcome t :=
  match post_init self with
  | Return _ => Return self
  | Raise e => Raise e
  end.

(** The fields a factory passes on through [**kwargs]; [no_kwargs] holds
    the dataclass defaults. *)
Record kwargs : Type := mk_kwargs {
  kw_price_type : string;
  kw_limit_price : option Qc;
  kw_stop_price : option Qc;
  kw_take_profit : option Qc;
  kw_priority : Z;
  kw_metadata : option (gmap string string)
}.

Definition no_kwargs : kwargs := mk_kwargs "market" None None None 0 None.

Definition cls (symbol : string) (signal_type : SignalType) (quantity : Qc)
    (timestamp : time) (kw : kwargs) : outcome t :=
  init (mk symbol signal_type quantity timestamp (kw_price_type kw)
          (kw_limit_price kw) (kw_stop_price kw) (kw_take_profit kw)
          (kw_priority kw) (kw_metadata kw)).

(** [x or 0] on an optional number. *)
Definition or_zero (x : option Qc) : Qc :=
  match x with
  | Some q => if decide (q = 0) then 0 else q
  | None => 0
  end.

(** [close_signal] (signals.py:149-160). *)
Definition close_signal (now : time) (symbol : string) (quantity : option Qc)
    (timestamp : option time) (kw : kwargs) : outcome t :=
  cls symbol SIG_CLOSE (or_zero quantity) (default now timestamp) kw.

(** [hold_signal] (signals.py:162-173). *)
Definition hold_signal (now : time) (symbol : string)
    (timestamp : option time) (kw : kwargs) : outcome t :=
  cls symbol SIG_HOLD 0 (default now timestamp) kw.

(** [direction] (signals.py:53-68). *)
Definition direction (self : t) : Z :=
  match signal_type self with
  | SIG_BUY => if decide (0 < quantity self) then 1%Z else (-1)%Z
  | SIG_SELL => if decide (0 < quantity self) then (-1)%Z else 1%Z
  | SIG_CLOSE | SIG_CLOSE_LONG | SIG_CLOSE_SHORT => 0%Z
  | SIG_HOLD => if decide (0 < quantity self) then 1%Z else (-1)%Z
  end.

(** The tests on the direction (signals.py:70-83). *)
Definition is_long_signal (self : t) : bool := bool_decide (0 < direction self)%Z.

Definition is_short_signal (self : t) : bool := bool_decide (direction self < 0)%Z.

Definition is_close_signal (self : t) : bool := bool_decide (direction self = 0%Z).

(** [abs_quantity] (signals.py:95-98). *)
Definition abs_quantity (self : t) : Qc := Qcabs.Qcabs (quantity self).

(** [buy_signal] and [sell_signal] (signals.py:123-147). *)
Definition buy_signal (now : time) (symbol : string) (quantity : Qc)
    (timestamp : option time) (kw : kwargs) : outcome t :=
  cls symbol SIG_BUY (Qcabs.Qcabs quantity) (default now timestamp) kw.

Definition sell_signal (now : time) (symbol : string) (quantity : Qc)
    (timestamp : option time) (kw : kwargs) : outcome t :=
  cls symbol SIG_SELL (Qcabs.Qcabs quantity) (default now timestamp) kw.

End Signal.

(** ** SignalGenerator (signals.py:184-227) *)

Module SignalGenerator.

Record t : Type := mk {
  symbol : string;
  last_signal : option Signal.t;
  signal_history : list Signal.t
}.

(** [__init__] (signals.py:191-200). *)
Definition init (symbol : string) : t := mk symbol None [].

(** [add_signal] (signals.py:211-214). *)
Definition add_signal (signal : Signal.t) (self : t) : t :=
  mk (symbol self) (Some signal) (signal_history self ++ [signal]).

(** [get_last_signal] (signals.py:216-218). *)
Definition get_last_signal (self : t) : option Signal.t := last_signal self.

(** [clear_history] (signals.py:224-227). *)
Definition clear_history (self : t) : t := mk (symbol self) None [].

End SignalGenerator.

(** ** SimpleSignalGenerator (signals.py:230-296) *)

Module SimpleSignalGenerator.

Local Open Scope method_scope.

(** The attributes of the base class and the three of [__init__]
    (signals.py:237-251). *)
Record t : Type := mk {
  base : SignalGenerator.t;
  buy_threshold : Qc;
  sell_threshold : Qc;
  reference_price : option Qc
}.

(** [__init__] (signals.py:237-251). *)
Definition init (symbol : string) (buy_threshold sell_threshold : Qc) : t :=
  mk (SignalGenerator.init symbol) buy_threshold sell_threshold None.

(** [set_reference_price] (signals.py:253-255). *)
Definition set_reference_price (price : Qc) (self : t) : t :=
  mk (base self) (buy_threshold self) (sell_threshold self) (Some price).

Definition add_signal (signal : Signal.t) (self : t) : t :=
  mk (SignalGenerator.add_signal signal (base self)) (buy_threshold self)
     (sell_threshold self) (reference_price self).

(** A factory call made by a method: on a raise the object is as it was. *)
Definition construct {S A} (o : outcome A) : method S A :=
  match o with
  | Return a => ret a
  | Raise e => throw e
  end.

(** [generate_signal] (signals.py:257-296). *)
Definition generate_signal (now : time) (current_price quantity : Qc)
    (timestamp : option time) (kw : Signal.kwargs)
    : method t (option Signal.t) :=
  let* self := get in
  match reference_price self with
  | None => modify (set_reference_price current_price) ;;; ret None
  | Some reference =>
      if decide (reference * buy_threshold self < current_price) then
        let* signal :=
          construct (Signal.buy_signal now (SignalGenerator.symbol (base self))
                       quantity timestamp kw) in
        modify (add_signal signal) ;;;
        modify (set_reference_price current_price) ;;;
        ret (Some signal)
      else if decide (current_price < reference * sell_threshold self) then
        let* signal :=
          construct (Signal.sell_signal now (SignalGenerator.symbol (base self))
                       quantity timestamp kw) in
        modify (add_signal signal) ;;;
        modify (set_reference_price current_price) ;;;
        ret (Some signal)
      else ret None
  end.

End SimpleSignalGenerator.

(** ** data/bar.py: the fields of a [Bar] (bar.py:10-25) *)

Module Bar.

Record t : Type := mk {
  symbol : string;
  datetime : time;
  open : Qc;
  high : Qc;
  low : Qc;
  close : Qc;
  volume : Z;
  open_interest : Z;
  freq : string
}.

End Bar.

(** ** StrategyBase: the bar history (base.py:181-230, 302-305)

    These methods read and write [self.bar_history] only. *)

Module StrategyBase.

(** [get_history_bars] (base.py:181-191). *)
Definition get_history_bars (count : Z) (bar_history : list Bar.t)
    : list Bar.t :=
  if decide (0 < count)%Z then slice_from (- count) bar_history
  else bar_history.

(** [get_history_prices] (base.py:193-213). *)
Definition get_history_prices (count : Z) (price_type : string)
    (bar_history : list Bar.t) : list Qc :=
  let bars := get_history_bars count bar_history in
  if decide (price_type = "open") then map Bar.open bars
  else if decide (price_type = "high") then map Bar.high bars
  else if decide (price_type = "low") then map Bar.low bars
  else map Bar.close bars.

(** [calculate_sma] (base.py:215-230). *)
Definition calculate_sma (period : Z) (price_type : string)
    (bar_history : list Bar.t) : outcome (option Qc) :=
  let prices := get_history_prices period price_type bar_history in
  if decide (Z.of_nat (length prices) < period)%Z then Return None
  else if decide (length prices = 0%nat) then Raise ZeroDivisionError
  else
    Return (Some (sum_numbers prices / Qc_of_Z (Z.of_nat (length prices)))).

(** [_manage_history_size] (base.py:302-305). *)
Definition manage_history_size (max_size : Z) (bar_history : list Bar.t)
    : list Bar.t :=
  if decide (max_size < Z.of_nat (length bar_history))%Z then
    slice_from (- max_size) bar_history
  else bar_history.

End StrategyBase.

(** ** The same arithmetic in binary64

    Where rounding, a NaN or an infinity decides a statement, the code is
    embedded a second time over binary64 ([PrimFloat]): [+ - * /] round to
    nearest as Python's [float] operations do, and every comparison with a
    NaN is false.  The control flow is the one of the modules above. *)

Module F64.

Local Open Scope method_scope.

Definition nan : float := (0 / 0)%float.

(** Python's [x / y] on floats: a zero divisor raises. *)
Definition divide {S} (x y : float) : method S float :=
  if (y =? 0)%float then throw ZeroDivisionError else ret (x / y)%float.

End F64.

(** [Position] over binary64 (position.py:18-155); the numeric fields hold
    [float]s, as the dataclass annotates them. *)
Module F64Position.

Local Open Scope method_scope.

Record t : Type := mk {
  symbol : string;
  side : PositionSide;
  quantity : float;
  avg_price : float;
  current_price : float;
  timestamp : time;
  unrealized_pnl : float;
  realized_pnl : float
}.

Definition set_side (v : PositionSide) (self : t) : t :=
  mk (symbol self) v (quantity self) (avg_price self) (current_price self)
     (timestamp self) (unrealized_pnl self) (realized_pnl self).
Definition set_quantity (v : float) (self : t) : t :=
  mk (symbol self) (side self) v (avg_price self) (current_price self)
     (timestamp self) (unrealized_pnl self) (realized_pnl self).
Definition set_avg_price (v : float) (self : t) : t :=
  mk (symbol self) (side self) (quantity self) v (current_price self)
     (timestamp self) (unrealized_pnl self) (realized_pnl self).
Definition set_timestamp (v : time) (self : t) : t :=
  mk (symbol self) (side self) (quantity self) (avg_price self)
     (current_price self) v (unrealized_pnl self) (realized_pnl self).
Definition set_realized_pnl (v : float) (self : t) : t :=
  mk (symbol self) (side self) (quantity self) (avg_price self)
     (current_price self) (timestamp self) (unrealized_pnl self) v.

(** [is_long], [is_flat] and [cost_value] (position.py:45-68). *)
Definition is_long (self : t) : bool :=
  bool_decide (side self = LONG) && (0 <? quantity self)%float.

Definition is_flat (self : t) : bool :=
  bool_decide (side self = FLAT) || (quantity self =? 0)%float.

Definition cost_value (self : t) : float :=
  (quantity self * avg_price self)%float.

(** [add_position] (position.py:100-121). *)
Definition add_position (now : time) (qty price : float) : method t unit :=
  if (qty <=? 0)%float then throw (ValueError add_quantity_not_positive)
  else
    (let* self := get in
     if is_flat self then
       modify (set_quantity qty) ;;;
       modify (set_avg_price price)
     else
       let total_cost := (cost_value self + qty * price)%float in
       modify (set_quantity (quantity self + qty)%float) ;;;
       let* self := get in
       let* avg := F64.divide total_cost (quantity self) in
       modify (set_avg_price avg)) ;;;
    modify (set_timestamp now).

(** The profit and loss [reduce_position] realizes (position.py:141-145). *)
Definition realized_on_reduce (qty price : float) (self : t) : float :=
  let price_diff := (price - avg_price self)%float in
  if is_long self then (qty * price_diff)%float
  else (qty * (- price_diff))%float.

(** [reduce_position] (position.py:123-155). *)
Definition reduce_position (now : time) (qty price : float) : method t float :=
  let* self := get in
  if (qty <=? 0)%float then throw (ValueError reduce_quantity_not_positive)
  else if (quantity self <? qty)%float then
    throw (ValueError reduce_quantity_exceeds_position)
  else
    let pnl := realized_on_reduce qty price self in
    modify (set_realized_pnl (realized_pnl self + pnl)%float) ;;;
    modify (set_quantity (quantity self - qty)%float) ;;;
    let* self := get in
    (if (quantity self =? 0)%float then modify (set_side FLAT) else ret tt) ;;;
    modify (set_timestamp now) ;;;
    ret pnl.

End F64Position.

(** [Trade] over binary64 (trade.py:28-69). *)
Module F64Trade.

Record t : Type := mk {
  trade_id : string;
  symbol : string;
  trade_type : TradeType;
  quantity : float;
  price : float;
  timestamp : time;
  status : TradeStatus;
  commission : float;
  slippage : float;
  realized_pnl : float;
  order_price : option float;
  fill_time : option time;
  metadata : option (gmap string string)
}.

(** [__post_init__] (trade.py:49-58). *)
Definition post_init (self : t) : outcome unit :=
  if (quantity self <=? 0)%float then
    Raise (ValueError trade_quantity_not_positive)
  else if (price self <=? 0)%float then
    Raise (ValueError trade_price_not_positive)
  else if (commission self <? 0)%float then
    Raise (ValueError trade_commission_negative)
  else Return tt.

Definition init (self : t) : outcome t :=
  match post_init self with
  | Return _ => Return self
  | Raise e => Raise e
  end.

(** [trade_value] and [total_cost] (trade.py:60-69). *)
Definition trade_value (self : t) : float := (quantity self * price self)%float.

Definition total_cost (self : t) : float :=
  let slippage_cost := (quantity self * abs (slippage self))%float in
  (trade_value self + commission self + slippage_cost)%float.

End F64Trade.

(** ** Properties and inputs named by the theorems *)

(** The data-model invariant [quantity == 0 <=> side == FLAT]. *)
Definition quantity_side_invariant (p : Position.t) : Prop :=
  Position.quantity p = 0 <-> Position.side p = FLAT.

(** [position.reduce_position(q, p); position.add_position(q, p)]. *)
Definition reduce_then_add (now : time) (q p : Qc) : method Position.t unit :=
  bind (Position.reduce_position now q p)
       (fun _ => Position.add_position now q p).

(** The same two calls in binary64. *)
Definition reduce_then_add_binary64 (now : time) (q p : float)
    : method F64Position.t unit :=
  bind (F64Position.reduce_position now q p)
       (fun _ => F64Position.add_position now q p).

(** LONG 10 at 100, and LONG 3 at 0.1, in binary64. *)
Definition long_10_at_100_binary64 : F64Position.t :=
  F64Position.mk "IF2306" LONG 10 100 100 0%Z 0 0.

Definition long_3_at_a_tenth : F64Position.t :=
  F64Position.mk "IF2306" LONG 3 (1 / 10) (1 / 10) 0%Z 0 0.

(** A buy of 10 at 100 whose commission is a NaN. *)
Definition nan_commission_trade : F64Trade.t :=
  F64Trade.mk "t-4" "IF2306" BUY 10 100 0%Z PENDING F64.nan 0 0
              None None (Some ∅).

(** [for qty, price in fills: position.add_position(qty, price)]. *)
Fixpoint add_all (now : time) (fills : list (Qc * Qc)) : method Position.t unit :=
  match fills with
  | [] => ret tt
  | (qty, price) :: rest =>
      bind (Position.add_position now qty price) (fun _ => add_all now rest)
  end.

(** The sums of the quantity-weighted average, [Σ qty_i] and
    [Σ qty_i·price_i]. *)
Fixpoint sum_quantity (fills : list (Qc * Qc)) : Qc :=
  match fills with
  | [] => 0
  | (qty, _) :: rest => qty + sum_quantity rest
  end.

Fixpoint sum_cost (fills : list (Qc * Qc)) : Qc :=
  match fills with
  | [] => 0
  | (qty, price) :: rest => qty * price + sum_cost rest
  end.

(** [Position.create_long_position("IF2306", 10, 100)] at clock reading 0. *)
Definition long_10_at_100 : Position.t :=
  Position.mk "IF2306" LONG (num 10) (num 100) (num 100) 0%Z 0 0.

(** [Position("IF2306", PositionSide.FLAT, 0, 1, 1, t0)]: a flat position
    that passes [__post_init__]. *)
Definition flat_position : Position.t :=
  Position.mk "IF2306" FLAT 0 1 1 0%Z 0 0.

(** A manager whose dict holds [long_10_at_100]. *)
Definition manager_long_10 : gmap string Position.t :=
  {[ "IF2306" := long_10_at_100 ]}.

(** A buy of 10 at 100 that was cancelled. *)
Definition cancelled_trade : Trade.t :=
  Trade.mk "t-1" "IF2306" BUY (num 10) (num 100) 0%Z CANCELLED 0 0 0
           None None (Some ∅).

(** A lifecycle call on a [Trade], and a sequence of them run in order;
    the sequence stops at the first call that raises. *)
Inductive lifecycle_call : Type :=
  | call_fill (now : time) (fill_price : option Qc) (fill_time : option time)
  | call_cancel
  | call_reject (reason : string).

Definition run_call (c : lifecycle_call) : method Trade.t unit :=
  match c with
  | call_fill now fill_price fill_time => Trade.fill now fill_price fill_time
  | call_cancel => Trade.cancel
  | call_reject reason => Trade.reject reason
  end.

Fixpoint run_calls (cs : list lifecycle_call) : method Trade.t unit :=
  match cs with
  | [] => ret tt
  | c :: rest => bind (run_call c) (fun _ => run_calls rest)
  end.

(** What a [Trade] records of the order it was made for. *)
Definition order_fields (trade : Trade.t)
    : string * string * TradeType * Qc * time * Qc * Qc * Qc * option Qc :=
  (Trade.trade_id trade, Trade.symbol trade, Trade.trade_type trade,
   Trade.quantity trade, Trade.timestamp trade, Trade.commission trade,
   Trade.slippage trade, Trade.realized_pnl trade, Trade.order_price trade).

(** The calls that change a [TradeManager], and a run of them from the
    manager [__init__] builds. *)
Inductive manager_call : Type :=
  | call_add_trade (trade : Trade.t)
  | call_clear_trades.

Definition run_manager_call (self : TradeManager.t) (c : manager_call)
    : TradeManager.t :=
  match c with
  | call_add_trade trade => TradeManager.add_trade trade self
  | call_clear_trades => TradeManager.clear_trades self
  end.

Definition run_manager_calls (cs : list manager_call) : TradeManager.t :=
  fold_left run_manager_call cs TradeManager.init.

(** The position a filled trade opens from flat: on the trade's side, its
    quantity at its price. *)
Definition position_of_trade (trade : Trade.t) : Position.t :=
  Position.mk (Trade.symbol trade)
    (if Trade.is_long_side trade then LONG else SHORT)
    (Trade.quantity trade) (Trade.price trade) (Trade.price trade)
    (Trade.timestamp trade) 0 0.

(** The calls that change a [SignalGenerator], run in order from the
    generator [__init__] builds. *)
Inductive generator_call : Type :=
  | call_add_signal (signal : Signal.t)
  | call_clear_history.

Definition run_generator_call (self : SignalGenerator.t) (c : generator_call)
    : SignalGenerator.t :=
  match c with
  | call_add_signal signal => SignalGenerator.add_signal signal self
  | call_clear_history => SignalGenerator.clear_history self
  end.

Definition run_generator_calls (symbol : string) (cs : list generator_call)
    : SignalGenerator.t :=
  fold_left run_generator_call cs (SignalGenerator.init symbol).

(** ** Arithmetic on [Qc] *)

Ltac qc_closed := apply Qc_is_canon; vm_compute; reflexivity.

Lemma Qc_pos_ne_0 (x : Qc) : 0 < x -> x <> 0.
Proof. intros H E. rewrite E in H. exact (Qclt_not_eq _ _ H eq_refl). Qed.

Lemma Qc_not_le_0_of_gt (x y : Qc) : 0 <= x -> x < y -> ~ y <= 0.
Proof.
  intros H0 Hlt Hle.
  apply (Qclt_not_le _ _ Hlt). now apply Qcle_trans with 0.
Qed.

Lemma Qc_sub_eq_0 (x y : Qc) : x - y = 0 <-> x = y.
Proof.
  split; intros H.
  - replace x with ((x - y) + y) by ring. rewrite H. ring.
  - rewrite H. ring.
Qed.

Lemma Qc_sub_pos (x y : Qc) : y < x -> 0 < x - y.
Proof. intros H. now apply Qclt_minus_iff in H. Qed.

(** ** Position.reduce_position *)

(** C7: on a position holding a non-negative quantity, a reduce by more
    than the held quantity raises the insufficient-position error and the
    position object is exactly the one before the call, so [quantity],
    [avg_price], [side], [realized_pnl], [unrealized_pnl] and
    [current_price] all keep their values. *)
Theorem reduce_position_insufficient (now : time) (self : Position.t) (q p : Qc) :
  0 <= Position.quantity self ->
  Position.quantity self < q ->
  Position.reduce_position now q p self = (self, Raise InsufficientPosition).
Proof.
  intros Hheld Hexceeds.
  unfold Position.reduce_position, bind, get, throw.
  rewrite decide_False by (now apply Qc_not_le_0_of_gt with (Position.quantity self)).
  now rewrite decide_True.
Qed.

(** Whatever the sign of the quantities, an oversized reduce raises a
    [ValueError] and changes nothing. *)
Lemma reduce_position_oversized_unmodified (now : time) (self : Position.t)
    (q p : Qc) :
  Position.quantity self < q ->
  exists msg,
    Position.reduce_position now q p self = (self, Raise (ValueError msg)).
Proof.
  intros Hexceeds. unfold Position.reduce_position, bind, get, throw.
  destruct (decide (q <= 0)); [eauto|].
  rewrite decide_True by assumption. eauto.
Qed.

Lemma reduce_position_insufficient_witness :
  Position.reduce_position 1%Z (num 11) (num 110) long_10_at_100
  = (long_10_at_100, Raise InsufficientPosition).
Proof.
  apply reduce_position_insufficient; vm_compute; [discriminate | reflexivity].
Defined.

(** ** Trade *)

(** C9 on numbers: for a [Trade] that its constructor accepts,
    [trade_value] is [quantity * price], [total_cost] is [trade_value +
    commission + quantity * |slippage|], the quantity is positive and the
    commission is not negative, and so [total_cost >= trade_value]. *)
Theorem total_cost_ge_trade_value (fields self : Trade.t) :
  Trade.init fields = Return self ->
  Trade.trade_value self = Trade.quantity self * Trade.price self
  /\ Trade.total_cost self
     = Trade.trade_value self + Trade.commission self
       + Trade.quantity self * Qcabs.Qcabs (Trade.slippage self)
  /\ 0 < Trade.quantity self
  /\ 0 <= Trade.commission self
  /\ Trade.trade_value self <= Trade.total_cost self.
Proof.
  unfold Trade.init, Trade.post_init. intros Hinit.
  destruct (decide (Trade.quantity fields <= 0)) as [|Hq]; [discriminate|].
  destruct (decide (Trade.price fields <= 0)); [discriminate|].
  destruct (decide (Trade.commission fields < 0)) as [|Hc]; [discriminate|].
  injection Hinit as <-.
  apply Qcnot_le_lt in Hq. apply Qcnot_lt_le in Hc.
  split; [reflexivity|]. split; [reflexivity|].
  split; [exact Hq|]. split; [exact Hc|].
  unfold Trade.total_cost.
  rewrite <- Qcplus_assoc.
  rewrite <- (Qcplus_0_r (Trade.trade_value fields)) at 1.
  apply Qcplus_le_mono_l, Qcplus_nonneg_nonneg; [exact Hc|].
  apply Qcmult_nonneg_nonneg;
    [now apply Qclt_le_weak | apply Qcabs.Qcabs_nonneg].
Qed.

Lemma total_cost_ge_trade_value_witness :
  let t := Trade.mk "t-2" "IF2306" BUY (num 10) (num 100) 0%Z PENDING
                    (num 3) (Qcopp (num 2)) 0 None None (Some ∅) in
  Trade.trade_value t <= Trade.total_cost t.
Proof.
  intros t. apply (total_cost_ge_trade_value t t). reflexivity.
Defined.

(** What the constructor enforces in binary64 is that its three
    comparisons are false. *)
Lemma accepted_trade_binary64 (fields self : F64Trade.t) :
  F64Trade.init fields = Return self ->
  self = fields
  /\ (F64Trade.quantity self <=? 0)%float = false
  /\ (F64Trade.price self <=? 0)%float = false
  /\ (F64Trade.commission self <? 0)%float = false.
Proof.
  unfold F64Trade.init, F64Trade.post_init.
  destruct (F64Trade.quantity fields <=? 0)%float eqn:Hq; [discriminate|].
  destruct (F64Trade.price fields <=? 0)%float eqn:Hp; [discriminate|].
  destruct (F64Trade.commission fields <? 0)%float eqn:Hc; [discriminate|].
  injection 1 as <-. repeat split; assumption.
Qed.

(** C9 as stated fails in binary64: the constructor accepts a trade whose
    commission is a NaN ([nan < 0] is false), its [total_cost] is a NaN,
    and [total_cost >= trade_value] is false. *)
Lemma nan_commission_breaks_total_cost :
  ~ (forall fields self : F64Trade.t,
        F64Trade.init fields = Return self ->
        (F64Trade.trade_value self <=? F64Trade.total_cost self)%float = true).
Proof.
  intros claim.
  specialize (claim nan_commission_trade nan_commission_trade eq_refl).
  vm_compute in claim. discriminate claim.
Qed.

(** A terminal status does not stop any lifecycle method: [fill] and
    [cancel] return on every trade and overwrite the status. *)
Lemma fill_returns (now : time) (fill_price : option Qc)
    (fill_time : option time) (self : Trade.t) :
  (Trade.fill now fill_price fill_time self).2 = Return tt
  /\ Trade.status (Trade.fill now fill_price fill_time self).1 = FILLED.
Proof. destruct fill_price; split; reflexivity. Qed.

Lemma cancel_returns (self : Trade.t) :
  (Trade.cancel self).2 = Return tt
  /\ Trade.status (Trade.cancel self).1 = CANCELLED.
Proof. split; reflexivity. Qed.

Lemma reject_status (reason : string) (self : Trade.t) :
  Trade.status (Trade.reject reason self).1 = REJECTED.
Proof.
  unfold Trade.reject, bind, modify, get, ret, throw.
  destruct (decide (reason = "")); [reflexivity|].
  cbn. destruct (Trade.metadata self); reflexivity.
Qed.

Lemma reject_returns (reason : string) (self : Trade.t) :
  reason = "" \/ Trade.metadata self <> None ->
  (Trade.reject reason self).2 = Return tt.
Proof.
  intros H. unfold Trade.reject, bind, modify, get, ret, throw.
  destruct (decide (reason = "")) as [|Hreason]; [reflexivity|].
  cbn. destruct (Trade.metadata self); [reflexivity|].
  destruct H; congruence.
Qed.

(** C2, as the code has it: no lifecycle method looks at the current
    status.  On every trade, terminal or not, [fill] returns, stores the
    fill price when one is given (the price is kept otherwise), stores the
    fill time and leaves the status FILLED; [cancel] returns and changes
    the status to CANCELLED and nothing else; [reject] leaves the status
    REJECTED and returns whenever the reason is empty or the metadata is a
    dict; a second [fill] therefore returns like the first. *)
Theorem lifecycle_has_no_terminal_guard :
  (forall now fill_price fill_time self,
      (Trade.fill now fill_price fill_time self).2 = Return tt
      /\ Trade.status (Trade.fill now fill_price fill_time self).1 = FILLED)
  /\ (forall self,
      (Trade.cancel self).2 = Return tt
      /\ Trade.status (Trade.cancel self).1 = CANCELLED)
  /\ (forall reason self,
      Trade.status (Trade.reject reason self).1 = REJECTED)
  /\ (forall now now' self,
      (Trade.fill now' None None (Trade.fill now None None self).1).2
      = Return tt)
  /\ (forall now fill_price fill_time self,
      Trade.fill now fill_price fill_time self
      = (Trade.mk (Trade.trade_id self) (Trade.symbol self)
           (Trade.trade_type self) (Trade.quantity self)
           (match fill_price with
            | Some p => p
            | None => Trade.price self
            end)
           (Trade.timestamp self) FILLED (Trade.commission self)
           (Trade.slippage self) (Trade.realized_pnl self)
           (Trade.order_price self)
           (Some (match fill_time with Some t => t | None => now end))
           (Trade.metadata self),
         Return tt))
  /\ (forall self,
      Trade.cancel self
      = (Trade.mk (Trade.trade_id self) (Trade.symbol self)
           (Trade.trade_type self) (Trade.quantity self) (Trade.price self)
           (Trade.timestamp self) CANCELLED (Trade.commission self)
           (Trade.slippage self) (Trade.realized_pnl self)
           (Trade.order_price self) (Trade.fill_time self)
           (Trade.metadata self),
         Return tt))
  /\ (forall reason self,
      reason = "" \/ Trade.metadata self <> None ->
      (Trade.reject reason self).2 = Return tt).
Proof.
  split; [exact fill_returns|].
  split; [exact cancel_returns|].
  split; [exact reject_status|].
  split; [intros now now' self; apply fill_returns|].
  split; [intros now [p|] [t|] self; reflexivity|].
  split; [reflexivity|].
  exact reject_returns.
Qed.

Lemma lifecycle_has_no_terminal_guard_witness :
  Trade.fill 2%Z (Some (num 101)) None cancelled_trade
  = (Trade.mk "t-1" "IF2306" BUY (num 10) (num 101) 0%Z FILLED 0 0 0
       None (Some 2%Z) (Some ∅),
     Return tt)
  /\ (Trade.reject "late" cancelled_trade).2 = Return tt.
Proof.
  destruct lifecycle_has_no_terminal_guard
    as (_ & _ & _ & _ & Hfill & _ & Hreject).
  split; [apply Hfill|]. apply Hreject. right. discriminate.
Defined.

(** C2 as stated fails: it is not the case that every lifecycle call on a
    trade in a terminal status raises and keeps the status.  [fill()] on
    the cancelled trade returns and the status becomes FILLED. *)
Lemma terminal_trade_transitions_again :
  ~ (forall now fill_price fill_time self,
        is_terminal (Trade.status self) = true ->
        raises (Trade.fill now fill_price fill_time self).2 = true
        /\ Trade.status (Trade.fill now fill_price fill_time self).1
           = Trade.status self).
Proof.
  intros claim.
  destruct (claim 1%Z None None cancelled_trade eq_refl) as [Hraises _].
  discriminate Hraises.
Qed.

(** ** Signal *)

(** C10: a [Signal] whose quantity is zero is never constructed: the
    constructor raises whatever the other fields are.  [hold_signal]
    always passes quantity 0, and [close_signal] does when it is given no
    quantity or the quantity 0, so these calls raise on every input. *)
Theorem zero_quantity_signal_raises :
  (forall symbol signal_type timestamp price_type limit_price stop_price
          take_profit priority metadata,
      Signal.init (Signal.mk symbol signal_type 0 timestamp price_type
                     limit_price stop_price take_profit priority metadata)
      = Raise (ValueError signal_quantity_zero))
  /\ (forall now symbol timestamp kw,
      Signal.hold_signal now symbol timestamp kw
      = Raise (ValueError signal_quantity_zero))
  /\ (forall now symbol timestamp kw,
      Signal.close_signal now symbol None timestamp kw
      = Raise (ValueError signal_quantity_zero))
  /\ (forall now symbol timestamp kw,
      Signal.close_signal now symbol (Some 0) timestamp kw
      = Raise (ValueError signal_quantity_zero)).
Proof. repeat split. Qed.

(** ** Position: what each call leaves behind *)

Lemma is_flat_false (self : Position.t) :
  Position.side self <> FLAT -> Position.quantity self <> 0 ->
  Position.is_flat self = false.
Proof.
  intros Hside Hqty. unfold Position.is_flat.
  now rewrite !bool_decide_eq_false_2.
Qed.

Lemma is_flat_side (self : Position.t) :
  Position.side self = FLAT -> Position.is_flat self = true.
Proof.
  intros Hside. unfold Position.is_flat. now rewrite bool_decide_eq_true_2.
Qed.

Lemma is_flat_quantity (self : Position.t) :
  Position.quantity self = 0 -> Position.is_flat self = true.
Proof.
  intros Hqty. unfold Position.is_flat.
  rewrite (bool_decide_eq_true_2 (Position.quantity self = 0)) by assumption.
  apply orb_true_r.
Qed.

(** A successful [reduce_position]. *)
Lemma reduce_position_returns (now : time) (self : Position.t) (q p : Qc) :
  0 < q -> q <= Position.quantity self ->
  Position.reduce_position now q p self
  = (Position.mk (Position.symbol self)
       (if decide (Position.quantity self - q = 0) then FLAT
        else Position.side self)
       (Position.quantity self - q) (Position.avg_price self)
       (Position.current_price self) now (Position.unrealized_pnl self)
       (Position.realized_pnl self
        + Position.realized_on_reduce q p self),
     Return (Position.realized_on_reduce q p self)).
Proof.
  intros Hq Hle.
  unfold Position.reduce_position, bind, get, throw, modify, ret.
  rewrite decide_False by (now apply Qclt_not_le).
  rewrite decide_False by (now apply Qcle_not_lt).
  cbn. destruct (decide (Position.quantity self - q = 0)); reflexivity.
Qed.

(** [add_position] on a position that [is_flat]. *)
Lemma add_position_opens (now : time) (self : Position.t) (q p : Qc) :
  0 < q -> Position.is_flat self = true ->
  Position.add_position now q p self
  = (Position.mk (Position.symbol self) (Position.side self) q p
       (Position.current_price self) now (Position.unrealized_pnl self)
       (Position.realized_pnl self),
     Return tt).
Proof.
  intros Hq Hflat.
  unfold Position.add_position, bind, get, throw, modify, ret.
  rewrite decide_False by (now apply Qclt_not_le).
  now rewrite Hflat.
Qed.

(** [add_position] on a position that is not flat. *)
Lemma add_position_averages (now : time) (self : Position.t) (q p : Qc) :
  0 < q -> Position.is_flat self = false ->
  Position.quantity self + q <> 0 ->
  Position.add_position now q p self
  = (Position.mk (Position.symbol self) (Position.side self)
       (Position.quantity self + q)
       ((Position.quantity self * Position.avg_price self + q * p)
        / (Position.quantity self + q))
       (Position.current_price self) now (Position.unrealized_pnl self)
       (Position.realized_pnl self),
     Return tt).
Proof.
  intros Hq Hflat Hsum.
  unfold Position.add_position, bind, get, throw, modify, ret, divide.
  rewrite decide_False by (now apply Qclt_not_le).
  rewrite Hflat. cbn. now rewrite decide_False.
Qed.

(** [close_position] on a held position: everything is sold at [p]. *)
Lemma close_position_returns (now : time) (self : Position.t) (p : Qc) :
  Position.side self <> FLAT -> 0 < Position.quantity self ->
  Position.close_position now p self
  = (Position.mk (Position.symbol self) FLAT 0 (Position.avg_price self)
       (Position.current_price self) now (Position.unrealized_pnl self)
       (Position.realized_pnl self
        + Position.realized_on_reduce (Position.quantity self) p self),
     Return (Position.realized_on_reduce (Position.quantity self) p self)).
Proof.
  intros Hside Hqty.
  unfold Position.close_position, bind, get.
  rewrite is_flat_false by (auto using Qc_pos_ne_0).
  rewrite reduce_position_returns by (auto using Qcle_refl).
  replace (Position.quantity self - Position.quantity self) with 0 by ring.
  now rewrite decide_True.
Qed.


(** [reverse_position] on a held position, whichever side it is on: the
    side is read after [close_position] has set it to FLAT, so the new
    position is opened LONG. *)
Lemma reverse_position_opens_long (now : time) (self : Position.t)
    (new_quantity p : Qc) :
  Position.side self <> FLAT -> 0 < Position.quantity self ->
  0 < new_quantity ->
  Position.reverse_position now new_quantity p self
  = (Position.mk (Position.symbol self) LONG new_quantity p
       (Position.current_price self) now (Position.unrealized_pnl self)
       (Position.realized_pnl self
        + Position.realized_on_reduce (Position.quantity self) p self),
     Return (Position.realized_on_reduce (Position.quantity self) p self)).
Proof.
  intros Hside Hqty Hnew.
  unfold Position.reverse_position, bind.
  rewrite close_position_returns by assumption.
  now rewrite decide_True.
Qed.

(** C1 at the spec's example, LONG 10 at 100 reversed to 8 at 110: the call
    returns the realized profit 100 and leaves quantity 8 at average price
    110, and the side it leaves is LONG, not SHORT. *)
Theorem reverse_long_10_at_100 :
  let r := Position.reverse_position 1%Z (num 8) (num 110) long_10_at_100 in
  r.2 = Return (num 100)
  /\ Position.quantity r.1 = num 8
  /\ Position.avg_price r.1 = num 110
  /\ Position.side r.1 = LONG.
Proof.
  cbv zeta.
  rewrite reverse_position_opens_long
    by (vm_compute; first [discriminate | reflexivity]).
  repeat split. cbn. f_equal. qc_closed.
Qed.

(** ** PositionManager *)

Lemma create_flat_position_raises (now : time) (symbol : string) :
  Position.create_flat_position now symbol
  = Raise (ValueError position_avg_price_not_positive).
Proof. reflexivity. Qed.

(** C3 on the code: for a symbol the dict does not hold, [get_position]
    raises the [ValueError] of [Position.__post_init__] ([avg_price] is 0)
    and the dict is left as it was; no flat position is created. *)
Theorem get_position_new_symbol_raises (now : time) (symbol : string)
    (positions : gmap string Position.t) :
  positions !! symbol = None ->
  PositionManager.get_position now symbol positions
  = (positions, Raise (ValueError position_avg_price_not_positive)).
Proof.
  intros Hnew.
  unfold PositionManager.get_position, PositionManager.create_missing, bind.
  now rewrite Hnew, create_flat_position_raises.
Qed.

Lemma get_position_new_symbol_raises_witness :
  PositionManager.get_position 0%Z "IF2306" ∅
  = (∅, Raise (ValueError position_avg_price_not_positive)).
Proof.
  apply get_position_new_symbol_raises. reflexivity.
Defined.

(** C4 on the code: asking [update_position] for a smaller quantity on the
    side already held calls [add_position] with a negative quantity, which
    raises; nothing is reduced and no profit is realized, the dict is left
    as it was. *)
Theorem update_position_smaller_long_raises (now : time) (symbol : string)
    (positions : gmap string Position.t) (held : Position.t)
    (quantity price : Qc) :
  positions !! symbol = Some held ->
  Position.side held = LONG ->
  0 < Position.quantity held ->
  quantity < Position.quantity held ->
  PositionManager.update_position now symbol quantity LONG price positions
  = (positions, Raise (ValueError add_quantity_not_positive)).
Proof.
  intros Hheld Hside Hqty Hless.
  unfold PositionManager.update_position, PositionManager.create_missing,
    PositionManager.on_position, bind.
  rewrite Hheld. cbn. rewrite Hheld.
  assert (Position.is_short held = false) as Hshort.
  { unfold Position.is_short. now rewrite Hside. }
  assert (Position.set_side LONG held = held) as Hsame.
  { destruct held; cbn in *; now subst. }
  unfold PositionManager.update_held, PositionManager.same_side_update,
    bind, get, modify.
  rewrite Hshort, Hsame.
  rewrite is_flat_false by (rewrite ?Hside; auto using Qc_pos_ne_0).
  unfold Position.add_position, throw.
  rewrite decide_True.
  - now rewrite insert_id.
  - apply Qclt_le_weak, Qclt_minus_iff.
    replace (0 + - (quantity - Position.quantity held))
      with (Position.quantity held + - quantity) by ring.
    exact (proj1 (Qclt_minus_iff _ _) Hless).
Qed.

Lemma update_position_smaller_long_raises_witness :
  PositionManager.update_position 1%Z "IF2306" (num 6) LONG (num 110)
    manager_long_10
  = (manager_long_10, Raise (ValueError add_quantity_not_positive)).
Proof.
  apply (update_position_smaller_long_raises 1%Z "IF2306" manager_long_10
           long_10_at_100); vm_compute; reflexivity.
Defined.

(** ** Reduce followed by add *)

(** Reducing LONG 10 at 100 by 4 at 110 and adding 4 back at 110 leaves
    quantity 10 at average price 104, not 100 (exact arithmetic). *)
Lemma reduce_then_add_moves_avg_price :
  ~ (forall now self q p,
        Position.side self <> FLAT -> 0 < Position.quantity self ->
        0 < q -> q <= Position.quantity self -> 0 < p ->
        Position.quantity (reduce_then_add now q p self).1
        = Position.quantity self
        /\ Position.avg_price (reduce_then_add now q p self).1
           = Position.avg_price self).
Proof.
  intros claim.
  assert (Position.avg_price
            (reduce_then_add 1%Z (num 4) (num 110) long_10_at_100).1
          = Position.avg_price long_10_at_100) as Havg.
  { apply claim; vm_compute; first [discriminate | reflexivity]. }
  apply (f_equal this) in Havg. vm_compute in Havg. discriminate Havg.
Qed.

(** In exact arithmetic only: on a held position, [reduce_position(q, p)]
    followed by [add_position(q, p)] returns, restores the quantity, and
    leaves the average price [((quantity - q) * avg_price + q * p) /
    quantity]; that is the average price before the reduce exactly when [p]
    is that price.  Binary64 rounds each step; see the binary64 section. *)
Theorem reduce_then_add_restores_quantity (now : time) (self : Position.t)
    (q p : Qc) :
  Position.side self <> FLAT -> 0 < Position.quantity self ->
  0 < q -> q <= Position.quantity self -> 0 < p ->
  (reduce_then_add now q p self).2 = Return tt
  /\ Position.quantity (reduce_then_add now q p self).1
     = Position.quantity self
  /\ Position.avg_price (reduce_then_add now q p self).1
     = ((Position.quantity self - q) * Position.avg_price self + q * p)
       / Position.quantity self
  /\ (Position.avg_price (reduce_then_add now q p self).1
      = Position.avg_price self
      <-> p = Position.avg_price self).
Proof.
  intros Hside Hqty Hq Hle Hp.
  pose proof (Qc_pos_ne_0 _ Hqty) as Hqty0.
  pose proof (Qc_pos_ne_0 _ Hq) as Hq0.
  assert (Position.avg_price (reduce_then_add now q p self).1
          = ((Position.quantity self - q) * Position.avg_price self + q * p)
            / Position.quantity self
          /\ (reduce_then_add now q p self).2 = Return tt
          /\ Position.quantity (reduce_then_add now q p self).1
             = Position.quantity self) as (Havg & Hret & Hrestored).
  { unfold reduce_then_add, bind.
    rewrite reduce_position_returns by assumption.
    destruct (decide (Position.quantity self - q = 0)) as [Hall|Hpart].
    - rewrite add_position_opens by (auto using is_flat_side).
      apply (proj1 (Qc_sub_eq_0 _ _)) in Hall. cbn. rewrite <- Hall.
      repeat split. field. assumption.
    - rewrite add_position_averages;
        [ | assumption | now apply is_flat_false
          | cbn; now replace (Position.quantity self - q + q)
                       with (Position.quantity self) by ring ].
      cbn. replace (Position.quantity self - q + q)
             with (Position.quantity self) by ring.
      repeat split. }
  repeat split; try assumption.
  - rewrite Havg. intros Hsame.
    assert (q * (p - Position.avg_price self) = 0) as Hzero.
    { replace (q * (p - Position.avg_price self))
        with (Position.quantity self
              * (((Position.quantity self - q) * Position.avg_price self
                  + q * p) / Position.quantity self)
              - Position.quantity self * Position.avg_price self)
        by (field; assumption).
      rewrite Hsame. ring. }
    apply Qcmult_integral in Hzero as [Hzero|Hzero]; [contradiction|].
    exact (proj1 (Qc_sub_eq_0 _ _) Hzero).
  - intros ->. rewrite Havg. field. assumption.
Qed.

Lemma reduce_then_add_restores_quantity_witness :
  Position.quantity (reduce_then_add 1%Z (num 4) (num 110) long_10_at_100).1
  = Position.quantity long_10_at_100
  /\ Position.avg_price
       (reduce_then_add 1%Z (num 4) (num 110) long_10_at_100).1
     = num 104.
Proof.
  destruct (reduce_then_add_restores_quantity 1%Z long_10_at_100
              (num 4) (num 110)) as (_ & Hqty & Havg & _);
    try (vm_compute; first [discriminate | reflexivity]).
  split; [exact Hqty|]. rewrite Havg. qc_closed.
Defined.

(** ** Sequences of adds *)

Lemma sum_quantity_nonneg (fills : list (Qc * Qc)) :
  Forall (fun f => 0 < f.1 /\ 0 < f.2) fills -> 0 <= sum_quantity fills.
Proof.
  induction 1 as [|[q p] rest [Hq _] _ IH]; cbn.
  - apply Qcle_refl.
  - apply Qcplus_nonneg_nonneg; [now apply Qclt_le_weak | exact IH].
Qed.

(** On a held position every add averages in. *)
Lemma add_all_averages (now : time) (fills : list (Qc * Qc)) :
  forall self : Position.t,
    Position.side self <> FLAT -> 0 < Position.quantity self ->
    Forall (fun f => 0 < f.1 /\ 0 < f.2) fills ->
    (add_all now fills self).2 = Return tt
    /\ Position.side (add_all now fills self).1 = Position.side self
    /\ Position.quantity (add_all now fills self).1
       = Position.quantity self + sum_quantity fills
    /\ Position.avg_price (add_all now fills self).1
       = (Position.quantity self * Position.avg_price self + sum_cost fills)
         / (Position.quantity self + sum_quantity fills).
Proof.
  induction fills as [|[q p] rest IH]; intros self Hside Hqty Hfills.
  - cbn. repeat split; [ring|]. field. now apply Qc_pos_ne_0.
  - inversion Hfills as [|? ? [Hq _] Hrest]; subst.
    pose proof (Qcplus_pos_pos _ _ Hqty Hq) as Hsum.
    pose proof (sum_quantity_nonneg rest Hrest) as Hmore.
    cbn [add_all sum_quantity sum_cost]. unfold bind.
    rewrite add_position_averages
      by (auto using Qc_pos_ne_0, is_flat_false).
    match goal with
    | |- context [add_all now rest ?s] =>
        destruct (IH s Hside Hsum Hrest) as (Hret & Hsame & Hq' & Havg)
    end.
    rewrite Hret, Hsame, Hq', Havg. cbn.
    repeat split; [ring|].
    field. split.
    + apply Qc_pos_ne_0.
      replace (Position.quantity self + (q + sum_quantity rest))
        with (Position.quantity self + q + sum_quantity rest) by ring.
      now apply Qcplus_pos_nonneg.
    + now apply Qc_pos_ne_0.
Qed.

(** Started on a position of quantity 0 whose side is LONG or SHORT, a
    sequence of adds leaves the sum of the quantities at the
    quantity-weighted average price. *)
Lemma add_all_weighted_average (now : time) (fills : list (Qc * Qc))
    (self : Position.t) :
  Position.side self <> FLAT -> Position.quantity self = 0 ->
  fills <> [] ->
  Forall (fun f => 0 < f.1 /\ 0 < f.2) fills ->
  (add_all now fills self).2 = Return tt
  /\ Position.quantity (add_all now fills self).1 = sum_quantity fills
  /\ Position.avg_price (add_all now fills self).1
     = sum_cost fills / sum_quantity fills.
Proof.
  intros Hside Hzero Hne Hfills.
  destruct fills as [|[q p] rest]; [contradiction|].
  inversion Hfills as [|? ? [Hq _] Hrest]; subst.
  cbn [add_all sum_quantity sum_cost]. unfold bind.
  rewrite add_position_opens by (auto using is_flat_quantity).
  match goal with
  | |- context [add_all now rest ?s] =>
      destruct (add_all_averages now rest s Hside Hq Hrest)
        as (Hret & _ & Hq' & Havg)
  end.
  now rewrite Hret, Hq', Havg.
Qed.

(** On a position whose side is FLAT, [add_position] overwrites quantity
    and average price and leaves the side FLAT. *)
Lemma add_position_on_flat_side (now : time) (self : Position.t) (q p : Qc) :
  Position.side self = FLAT -> 0 < q ->
  (Position.add_position now q p self).2 = Return tt
  /\ Position.side (Position.add_position now q p self).1 = FLAT
  /\ Position.quantity (Position.add_position now q p self).1 = q
  /\ Position.avg_price (Position.add_position now q p self).1 = p.
Proof.
  intros Hside Hq.
  rewrite add_position_opens by (auto using is_flat_side).
  now repeat split.
Qed.

(** C6 at the spec's example, started on a FLAT position: after
    [add(5, 4000)] and [add(5, 4100)] the position holds quantity 5 at
    average price 4100, while the sums are 10 and 4050: the second add
    replaced the first instead of averaging with it. *)
Theorem add_twice_on_flat_keeps_last :
  let fills := [(num 5, num 4000); (num 5, num 4100)] in
  let r := add_all 1%Z fills flat_position in
  r.2 = Return tt
  /\ Position.quantity r.1 = num 5
  /\ Position.avg_price r.1 = num 4100
  /\ sum_quantity fills = num 10
  /\ sum_cost fills / sum_quantity fills = num 4050.
Proof.
  cbv zeta. repeat split; qc_closed.
Qed.

(** ** The invariant [quantity == 0 <=> side == FLAT] *)





(** C8 on the code: [add_position] on the FLAT position returns and leaves
    side FLAT with quantity 5, so the invariant that held before the call
    does not hold after it. *)
Theorem add_position_on_flat_breaks_invariant :
  let r := Position.add_position 1%Z (num 5) (num 4000) flat_position in
  quantity_side_invariant flat_position
  /\ r.2 = Return tt
  /\ Position.side r.1 = FLAT
  /\ Position.quantity r.1 = num 5
  /\ ~ quantity_side_invariant r.1.
Proof.
  cbv zeta. split; [split; reflexivity|].
  destruct (add_position_on_flat_side 1%Z flat_position (num 5) (num 4000))
    as (Hret & Hside & Hqty & _); [reflexivity..|].
  repeat split; try assumption.
  intros [_ Hinv]. specialize (Hinv Hside). rewrite Hqty in Hinv.
  apply (f_equal this) in Hinv. vm_compute in Hinv. discriminate Hinv.
Qed.

(** ** Position: marking, closing and reversing *)

(** Marking a held position to a price and closing it at that price agree:
    the profit and loss [close_position] returns is the [unrealized_pnl]
    that [update_price] stored. *)
Theorem close_realizes_marked_pnl (now now' : time) (self : Position.t) (p : Qc) :
  Position.side self <> FLAT -> 0 < Position.quantity self ->
  (Position.close_position now' p (Position.update_price now p self)).2
  = Return (Position.unrealized_pnl (Position.update_price now p self)).
Proof.
  intros Hside Hqty.
  rewrite close_position_returns by assumption.
  cbn [snd]. f_equal.
  unfold Position.update_price, Position.calculate_unrealized_pnl,
    Position.realized_on_reduce.
  cbn. unfold Position.is_flat, Position.is_long. cbn.
  rewrite (bool_decide_eq_false_2 (Position.side self = FLAT)) by assumption.
  rewrite (bool_decide_eq_false_2 (Position.quantity self = 0))
    by (now apply Qc_pos_ne_0).
  reflexivity.
Qed.

Lemma close_realizes_marked_pnl_witness :
  (Position.close_position 2%Z (num 110)
     (Position.update_price 1%Z (num 110) long_10_at_100)).2
  = Return (Position.unrealized_pnl
              (Position.update_price 1%Z (num 110) long_10_at_100)).
Proof.
  apply close_realizes_marked_pnl; vm_compute;
    first [discriminate | reflexivity].
Defined.

(** Whenever [reduce_position] raises, for whatever argument, the position
    is the one before the call. *)
Theorem reduce_position_raise_unmodified (now : time) (self self' : Position.t)
    (q p : Qc) (e : exn) :
  Position.reduce_position now q p self = (self', Raise e) -> self' = self.
Proof.
  unfold Position.reduce_position, bind, get, throw, modify, ret.
  destruct (decide (q <= 0)); [now injection 1|].
  destruct (decide (Position.quantity self < q)); [now injection 1|].
  cbn. destruct (decide (Position.quantity self - q = 0)); discriminate.
Qed.

Lemma reduce_position_raise_unmodified_witness :
  (Position.reduce_position 1%Z (num 11) (num 110) long_10_at_100).1
  = long_10_at_100.
Proof.
  apply (reduce_position_raise_unmodified 1%Z long_10_at_100 _
           (num 11) (num 110) InsufficientPosition).
  reflexivity.
Defined.

(** On a position that holds a non-negative quantity, [add_position] raises
    only for a quantity that is not positive, and then the position is the
    one before the call. *)
Theorem add_position_raise_unmodified (now : time) (self self' : Position.t)
    (q p : Qc) (e : exn) :
  0 <= Position.quantity self ->
  Position.add_position now q p self = (self', Raise e) ->
  self' = self /\ q <= 0 /\ e = ValueError add_quantity_not_positive.
Proof.
  intros Hheld Hcall.
  destruct (Qclt_le_dec 0 q) as [Hq|Hq].
  - destruct (Position.is_flat self) eqn:Hflat.
    + rewrite add_position_opens in Hcall by assumption. discriminate Hcall.
    + rewrite add_position_averages in Hcall;
        [discriminate Hcall | assumption | assumption |].
      apply Qc_pos_ne_0. now apply Qcplus_nonneg_pos.
  - unfold Position.add_position, throw in Hcall.
    rewrite decide_True in Hcall by assumption.
    injection Hcall as <- <-. auto.
Qed.

Lemma add_position_raise_unmodified_witness :
  (Position.add_position 1%Z (Qcopp (num 4)) (num 110) long_10_at_100).1
  = long_10_at_100
  /\ Qcopp (num 4) <= 0
  /\ ValueError add_quantity_not_positive
     = ValueError add_quantity_not_positive.
Proof.
  apply (add_position_raise_unmodified 1%Z long_10_at_100 _
           (Qcopp (num 4)) (num 110)); [vm_compute; discriminate|reflexivity].
Defined.



(** Reversing a held short position: the short is bought back at [p],
    which realizes [quantity * (avg_price - p)], and a long position of the
    new quantity is opened at [p]. *)
Theorem reverse_short_opens_long (now : time) (self : Position.t)
    (new_quantity p : Qc) :
  Position.side self = SHORT -> 0 < Position.quantity self ->
  0 < new_quantity ->
  (Position.reverse_position now new_quantity p self).2
  = Return (Position.quantity self * (Position.avg_price self - p))
  /\ Position.side (Position.reverse_position now new_quantity p self).1 = LONG
  /\ Position.quantity (Position.reverse_position now new_quantity p self).1
     = new_quantity
  /\ Position.avg_price (Position.reverse_position now new_quantity p self).1
     = p
  /\ Position.realized_pnl (Position.reverse_position now new_quantity p self).1
     = Position.realized_pnl self
       + Position.quantity self * (Position.avg_price self - p).
Proof.
  intros Hside Hqty Hnew.
  rewrite reverse_position_opens_long
    by (rewrite ?Hside; first [discriminate | assumption]).
  assert (Position.realized_on_reduce (Position.quantity self) p self
          = Position.quantity self * (Position.avg_price self - p)) as ->.
  { unfold Position.realized_on_reduce, Position.is_long.
    rewrite (bool_decide_eq_false_2 (Position.side self = LONG))
      by (rewrite Hside; discriminate).
    cbn. ring. }
  now repeat split.
Qed.

Lemma reverse_short_opens_long_witness :
  Position.side
    (Position.reverse_position 1%Z (num 8) (num 90)
       (Position.mk "IF2306" SHORT (num 10) (num 100) (num 100) 0%Z 0 0)).1
  = LONG.
Proof.
  apply (reverse_short_opens_long 1%Z
           (Position.mk "IF2306" SHORT (num 10) (num 100) (num 100) 0%Z 0 0)
           (num 8) (num 90)); vm_compute; reflexivity.
Defined.

(** [reverse_position] with a new quantity that is not positive opens
    nothing: it is [close_position]. *)
Theorem reverse_nonpositive_closes (now : time) (self : Position.t)
    (new_quantity p : Qc) :
  new_quantity <= 0 ->
  Position.reverse_position now new_quantity p self
  = Position.close_position now p self.
Proof.
  intros Hnew. unfold Position.reverse_position, bind, ret.
  rewrite decide_False by (now apply Qcle_not_lt).
  now destruct (Position.close_position now p self) as [closed [pnl|e]].
Qed.

Lemma reverse_nonpositive_closes_witness :
  Position.reverse_position 1%Z 0 (num 110) long_10_at_100
  = Position.close_position 1%Z (num 110) long_10_at_100.
Proof.
  apply reverse_nonpositive_closes. vm_compute. discriminate.
Defined.



(** ** PositionManager: updates and marks *)

(** [update_position] touches the position of its own symbol only,
    whether it returns or raises. *)
Theorem update_position_other_symbols (now : time) (symbol other : string)
    (quantity : Qc) (side : PositionSide) (price : Qc)
    (positions : gmap string Position.t) :
  symbol <> other ->
  (PositionManager.update_position now symbol quantity side price positions).1
    !! other
  = positions !! other.
Proof.
  intros Hother.
  unfold PositionManager.update_position, PositionManager.create_missing,
    PositionManager.on_position, bind.
  destruct (positions !! symbol) as [held|] eqn:Hheld.
  - rewrite Hheld.
    destruct (PositionManager.update_held now quantity side price held)
      as [held' r].
    cbn. now rewrite lookup_insert_ne.
  - now rewrite create_flat_position_raises.
Qed.

Lemma update_position_other_symbols_witness :
  (PositionManager.update_position 1%Z "IF2306" (num 6) LONG (num 110)
     manager_long_10).1 !! "IC2306"
  = manager_long_10 !! "IC2306".
Proof.
  apply update_position_other_symbols. discriminate.
Defined.








Lemma update_price_items_lookup (now : time) (items : list (string * Qc)) :
  NoDup items.*1 ->
  forall (positions : gmap string Position.t) (symbol : string),
    PositionManager.update_price_items now items positions !! symbol
    = match (list_to_map items : gmap string Qc) !! symbol with
      | Some price => Position.update_price now price <$> positions !! symbol
      | None => positions !! symbol
      end.
Proof.
  induction items as [|[key price] rest IH]; intros Hnodup positions symbol.
  - reflexivity.
  - cbn in Hnodup. apply NoDup_cons in Hnodup as [Hfresh Hnodup].
    cbn [PositionManager.update_price_items list_to_map foldr].
    rewrite IH by assumption.
    destruct (decide (key = symbol)) as [->|Hother].
    + rewrite lookup_insert_eq.
      rewrite (not_elem_of_list_to_map_1 _ _ Hfresh).
      destruct (positions !! symbol) as [held|] eqn:Hheld.
      * now rewrite lookup_insert_eq.
      * now rewrite Hheld.
    + rewrite lookup_insert_ne by assumption.
      destruct (positions !! key) as [held|];
        now rewrite ?lookup_insert_ne by assumption.
Qed.

(** The batch mark: [update_prices] marks exactly the held positions that
    have a price in the dict, each to its own price, and neither adds nor
    drops a symbol. *)
Theorem update_prices_lookup (now : time) (prices : gmap string Qc)
    (positions : gmap string Position.t) (symbol : string) :
  PositionManager.update_prices now prices positions !! symbol
  = match prices !! symbol with
    | Some price => Position.update_price now price <$> positions !! symbol
    | None => positions !! symbol
    end.
Proof.
  unfold PositionManager.update_prices.
  rewrite update_price_items_lookup by apply NoDup_fst_map_to_list.
  now rewrite list_to_map_to_list.
Qed.

(** ** Trade: profit and loss, lifecycle *)

(** The trade-local profit and the position's agree: for a trade of
    positive quantity, [calculate_pnl(exit_price)] is what closing the
    position that the trade opens realizes at that price. *)
Theorem calculate_pnl_matches_position (now : time) (trade : Trade.t)
    (exit_price : Qc) :
  0 < Trade.quantity trade ->
  (Position.close_position now exit_price (position_of_trade trade)).2
  = Return (Trade.calculate_pnl exit_price trade).
Proof.
  intros Hqty.
  rewrite close_position_returns;
    [ | unfold position_of_trade; cbn;
        destruct (Trade.is_long_side trade); discriminate
      | exact Hqty ].
  cbn [snd]. f_equal.
  unfold Position.realized_on_reduce, Position.is_long, Trade.calculate_pnl,
    position_of_trade. cbn.
  rewrite (bool_decide_eq_true_2 _ Hqty).
  destruct (Trade.is_long_side trade).
  - rewrite bool_decide_eq_true_2 by reflexivity. reflexivity.
  - rewrite bool_decide_eq_false_2 by discriminate. cbn. ring.
Qed.

Lemma calculate_pnl_matches_position_witness :
  (Position.close_position 1%Z (num 110) (position_of_trade cancelled_trade)).2
  = Return (Trade.calculate_pnl (num 110) cancelled_trade).
Proof.
  apply calculate_pnl_matches_position. reflexivity.
Defined.

Lemma run_call_keeps_order_fields (c : lifecycle_call) (self : Trade.t) :
  order_fields (run_call c self).1 = order_fields self.
Proof.
  destruct c as [now [fp|] ft| |reason]; try reflexivity.
  unfold run_call, Trade.reject, bind, modify, get, ret, throw.
  destruct (decide (reason = "")); [reflexivity|].
  cbn. destruct (Trade.metadata self); reflexivity.
Qed.

(** The order a trade records is never touched by its lifecycle: after any
    run of [fill], [cancel] and [reject] calls, whether the run ends or
    stops at a raise, [trade_id], [symbol], [trade_type], [quantity],
    [timestamp], [commission], [slippage], [realized_pnl] and [order_price]
    are the ones the trade had.  Only the price, the status, the fill time
    and the metadata can change. *)
Theorem lifecycle_keeps_order_fields (cs : list lifecycle_call) :
  forall self : Trade.t,
    order_fields (run_calls cs self).1 = order_fields self.
Proof.
  induction cs as [|c rest IH]; intros self; [reflexivity|].
  cbn [run_calls]. unfold bind.
  pose proof (run_call_keeps_order_fields c self) as Hcall.
  destruct (run_call c self) as [self1 [[]|e]]; cbn in *.
  - now rewrite IH.
  - exact Hcall.
Qed.

(** [reject] with a reason, on a trade whose metadata is a dict, returns
    with the status REJECTED and the reason stored under "reject_reason";
    every other key of the metadata and every other field is as before. *)
Theorem reject_records_reason (reason : string) (self : Trade.t)
    (d : gmap string string) :
  reason <> "" -> Trade.metadata self = Some d ->
  Trade.reject reason self
  = (Trade.set_metadata (Some (<["reject_reason" := reason]> d))
       (Trade.set_status REJECTED self),
     Return tt).
Proof.
  intros Hreason Hmeta. unfold Trade.reject, bind, modify, get, ret.
  rewrite decide_False by assumption. cbn. now rewrite Hmeta.
Qed.

Lemma reject_records_reason_witness :
  Trade.reject "margin" cancelled_trade
  = (Trade.set_metadata (Some (<["reject_reason" := "margin"]> ∅))
       (Trade.set_status REJECTED cancelled_trade),
     Return tt).
Proof.
  apply reject_records_reason; [discriminate | reflexivity].
Defined.

(** [reject] with a reason, on a trade whose metadata is [None], raises a
    [TypeError] when it stores the reason, after the status has been set:
    the trade is left REJECTED. *)
Theorem reject_without_metadata_raises (reason : string) (self : Trade.t) :
  reason <> "" -> Trade.metadata self = None ->
  Trade.reject reason self = (Trade.set_status REJECTED self, Raise TypeError).
Proof.
  intros Hreason Hmeta. unfold Trade.reject, bind, modify, get, throw.
  rewrite decide_False by assumption. cbn. now rewrite Hmeta.
Qed.

Lemma reject_without_metadata_raises_witness :
  let t := Trade.mk "t-3" "IF2306" SELL (num 1) (num 100) 0%Z PENDING
                    0 0 0 None None None in
  Trade.reject "margin" t = (Trade.set_status REJECTED t, Raise TypeError).
Proof.
  intros t. apply reject_without_metadata_raises; [discriminate | reflexivity].
Defined.

(** ** TradeManager *)

(** [add_trade] then [get_trade]: the trade is found under its own id, the
    other ids are as before, and the count grows by one even when the id
    was already taken. *)
Theorem add_trade_get_trade (trade : Trade.t) (self : TradeManager.t) :
  TradeManager.get_trade (Trade.trade_id trade)
    (TradeManager.add_trade trade self) = Some trade
  /\ (forall other,
        other <> Trade.trade_id trade ->
        TradeManager.get_trade other (TradeManager.add_trade trade self)
        = TradeManager.get_trade other self)
  /\ TradeManager.get_trade_count (TradeManager.add_trade trade self)
     = S (TradeManager.get_trade_count self).
Proof.
  unfold TradeManager.get_trade, TradeManager.get_trade_count,
    TradeManager.add_trade. cbn.
  split; [apply lookup_insert_eq|]. split.
  - intros other Hother. now apply lookup_insert_ne.
  - rewrite length_app. cbn. lia.
Qed.

Lemma add_trade_get_trade_witness :
  TradeManager.get_trade "t-9"
    (TradeManager.add_trade cancelled_trade TradeManager.init)
  = TradeManager.get_trade "t-9" TradeManager.init.
Proof.
  apply (add_trade_get_trade cancelled_trade TradeManager.init). discriminate.
Defined.

Lemma count_by_type (l : list Trade.t) :
  (length (List.filter (fun t => bool_decide (Trade.trade_type t = BUY)) l)
   + length (List.filter (fun t => bool_decide (Trade.trade_type t = SELL)) l)
   + length (List.filter
               (fun t => bool_decide (Trade.trade_type t = CLOSE_LONG)) l)
   + length (List.filter
               (fun t => bool_decide (Trade.trade_type t = CLOSE_SHORT)) l)
   = length l)%nat.
Proof.
  induction l as [|t rest IH]; [reflexivity|].
  cbn [List.filter].
  destruct (Trade.trade_type t); repeat case_bool_decide; try congruence;
    cbn [length]; lia.
Qed.

Lemma count_by_status (l : list Trade.t) :
  (length (List.filter Trade.is_filled l)
   + length (List.filter Trade.is_pending l) <= length l)%nat.
Proof.
  induction l as [|t rest IH]; [reflexivity|].
  cbn [List.filter]. unfold Trade.is_filled, Trade.is_pending in *.
  destruct (Trade.status t); repeat case_bool_decide; try congruence;
    cbn [length]; lia.
Qed.

(** The counts of the summary are consistent: the four per-type counts add
    up to [total_trades], and the filled and the pending trades together
    are at most [total_trades] (cancelled and rejected trades are counted
    in the total only). *)
Theorem summary_counts_add_up (self : TradeManager.t) :
  let s := TradeManager.get_trade_summary self in
  (TradeManager.buy_trades s + TradeManager.sell_trades s
   + TradeManager.close_long_trades s + TradeManager.close_short_trades s
   = TradeManager.total_trades s)%nat
  /\ (TradeManager.filled_trades s + TradeManager.pending_trades s
      <= TradeManager.total_trades s)%nat
  /\ TradeManager.total_trades s = TradeManager.get_trade_count self
  /\ TradeManager.filled_trades s = TradeManager.get_filled_trade_count self.
Proof.
  cbn. split; [apply count_by_type|].
  split; [apply count_by_status|]. split; reflexivity.
Qed.



Lemma fold_manager_calls_invariant (cs : list manager_call) :
  forall self : TradeManager.t,
    (forall id t, TradeManager.trades self !! id = Some t ->
                  Trade.trade_id t = id
                  /\ t ∈ TradeManager.trade_history self) ->
    (forall t, t ∈ TradeManager.trade_history self ->
               is_Some (TradeManager.trades self !! Trade.trade_id t)) ->
    let final := fold_left run_manager_call cs self in
    (forall id t, TradeManager.trades final !! id = Some t ->
                  Trade.trade_id t = id
                  /\ t ∈ TradeManager.trade_history final)
    /\ (forall t, t ∈ TradeManager.trade_history final ->
                  is_Some (TradeManager.trades final !! Trade.trade_id t)).
Proof.
  induction cs as [|c rest IH]; intros self Hdict Hhist; [now split|].
  cbn [fold_left]. apply IH; destruct c as [trade|]; cbn.
  - intros id t Hlookup.
    destruct (decide (Trade.trade_id trade = id)) as [<-|Hother].
    + rewrite lookup_insert_eq in Hlookup. injection Hlookup as <-.
      split; [reflexivity|]. apply elem_of_app. right. now left.
    + rewrite lookup_insert_ne in Hlookup by assumption.
      destruct (Hdict id t Hlookup) as [Hid Hin].
      split; [exact Hid|]. apply elem_of_app. now left.
  - intros id t Hlookup. rewrite lookup_empty in Hlookup. discriminate.
  - intros t Hin. apply elem_of_app in Hin as [Hin|Hin].
    + destruct (decide (Trade.trade_id trade = Trade.trade_id t)) as [<-|Hother].
      * rewrite lookup_insert_eq. eauto.
      * rewrite lookup_insert_ne by assumption. auto.
    + apply list_elem_of_singleton in Hin as ->.
      rewrite lookup_insert_eq. eauto.
  - intros t Hin. apply elem_of_nil in Hin. contradiction.
Qed.

(** After any run of [add_trade] and [clear_trades] calls on a new manager
    the dict and the list tell one story: a trade found by [get_trade] has
    the id it was asked by and is in the history, and the id of every trade
    of the history is found. *)
Theorem manager_dict_matches_history (cs : list manager_call) :
  (forall id t,
      TradeManager.get_trade id (run_manager_calls cs) = Some t ->
      Trade.trade_id t = id
      /\ t ∈ TradeManager.trade_history (run_manager_calls cs))
  /\ (forall t,
        t ∈ TradeManager.trade_history (run_manager_calls cs) ->
        is_Some (TradeManager.get_trade (Trade.trade_id t)
                   (run_manager_calls cs))).
Proof.
  unfold run_manager_calls, TradeManager.get_trade.
  apply (fold_manager_calls_invariant cs TradeManager.init); cbn.
  - intros id t Hlookup. rewrite lookup_empty in Hlookup. discriminate.
  - intros t Hin. apply elem_of_nil in Hin. contradiction.
Qed.

Lemma manager_dict_matches_history_witness :
  Trade.trade_id cancelled_trade = "t-1"
  /\ cancelled_trade
     ∈ TradeManager.trade_history
         (run_manager_calls [call_clear_trades; call_add_trade cancelled_trade]).
Proof.
  apply (manager_dict_matches_history
           [call_clear_trades; call_add_trade cancelled_trade]).
  reflexivity.
Defined.

(** ** Signal: direction and factories *)

(** Every signal is exactly one of long, short and close; it is a close
    signal exactly when its type is CLOSE, CLOSE_LONG or CLOSE_SHORT, so a
    HOLD signal counts as long or short by the sign of its quantity. *)
Theorem signal_direction_cases (signal : Signal.t) :
  (Signal.is_long_signal signal = true
   /\ Signal.is_short_signal signal = false
   /\ Signal.is_close_signal signal = false
   \/ Signal.is_long_signal signal = false
      /\ Signal.is_short_signal signal = true
      /\ Signal.is_close_signal signal = false
   \/ Signal.is_long_signal signal = false
      /\ Signal.is_short_signal signal = false
      /\ Signal.is_close_signal signal = true)
  /\ Signal.is_close_signal signal
     = match Signal.signal_type signal with
       | SIG_CLOSE | SIG_CLOSE_LONG | SIG_CLOSE_SHORT => true
       | SIG_BUY | SIG_SELL | SIG_HOLD => false
       end.
Proof.
  unfold Signal.is_long_signal, Signal.is_short_signal,
    Signal.is_close_signal, Signal.direction.
  destruct (Signal.signal_type signal);
    try destruct (decide (0 < Signal.quantity signal)); cbn; tauto.
Qed.

(** ** SignalGenerator *)

Lemma fold_generator_calls_last (cs : list generator_call) :
  forall self : SignalGenerator.t,
    SignalGenerator.last_signal self = last (SignalGenerator.signal_history self) ->
    let final := fold_left run_generator_call cs self in
    SignalGenerator.last_signal final
    = last (SignalGenerator.signal_history final).
Proof.
  induction cs as [|c rest IH]; intros self Hlast; [exact Hlast|].
  cbn [fold_left]. apply IH. destruct c as [signal|]; cbn.
  - now rewrite last_snoc.
  - reflexivity.
Qed.

(** After any run of [add_signal] and [clear_history] calls on a new
    generator, [get_last_signal] is the last signal of the history, and
    [None] exactly when the history is empty. *)
Theorem last_signal_is_last_of_history (symbol : string)
    (cs : list generator_call) :
  SignalGenerator.get_last_signal (run_generator_calls symbol cs)
  = last (SignalGenerator.signal_history (run_generator_calls symbol cs)).
Proof.
  unfold run_generator_calls, SignalGenerator.get_last_signal.
  now apply fold_generator_calls_last.
Qed.

(** A [generate_signal] that returns has put in the history exactly the
    signal it returns, if any; a returned signal is the new last signal and
    moves the reference price to the current price. *)
Theorem generate_signal_history (now : time) (current_price quantity : Qc)
    (timestamp : option time) (kw : Signal.kwargs)
    (self self' : SimpleSignalGenerator.t) (r : option Signal.t) :
  SimpleSignalGenerator.generate_signal now current_price quantity timestamp
    kw self = (self', Return r) ->
  SignalGenerator.signal_history (SimpleSignalGenerator.base self')
  = SignalGenerator.signal_history (SimpleSignalGenerator.base self)
    ++ option_list r
  /\ match r with
     | Some signal =>
         SignalGenerator.last_signal (SimpleSignalGenerator.base self')
         = Some signal
         /\ SimpleSignalGenerator.reference_price self' = Some current_price
     | None =>
         SimpleSignalGenerator.base self' = SimpleSignalGenerator.base self
     end.
Proof.
  unfold SimpleSignalGenerator.generate_signal, bind, get, modify, ret,
    SimpleSignalGenerator.construct, throw.
  destruct (SimpleSignalGenerator.reference_price self) as [reference|].
  - destruct (decide (reference * SimpleSignalGenerator.buy_threshold self
                      < current_price)).
    + destruct (Signal.buy_signal _ _ _ _ _) as [signal|e]; cbn;
        [|discriminate].
      injection 1 as <- <-. now cbn.
    + destruct (decide (current_price
                        < reference * SimpleSignalGenerator.sell_threshold self)).
      * destruct (Signal.sell_signal _ _ _ _ _) as [signal|e]; cbn;
          [|discriminate].
        injection 1 as <- <-. now cbn.
      * injection 1 as <- <-. cbn. now rewrite app_nil_r.
  - cbn. injection 1 as <- <-. cbn. now rewrite app_nil_r.
Qed.

Lemma generate_signal_history_witness :
  let g := SimpleSignalGenerator.mk (SignalGenerator.init "IF2306")
             (num 2) 0 (Some (num 100)) in
  let r := SimpleSignalGenerator.generate_signal 1%Z (num 300) (num 1) None
             Signal.no_kwargs g in
  SignalGenerator.signal_history (SimpleSignalGenerator.base r.1)
  = SignalGenerator.signal_history (SimpleSignalGenerator.base g)
    ++ [Signal.mk "IF2306" SIG_BUY (Qcabs.Qcabs (num 1)) 1%Z "market"
          None None None 0%Z None].
Proof.
  intros g r.
  refine (proj1 (generate_signal_history 1%Z (num 300) (num 1) None
                   Signal.no_kwargs g r.1
                   (Some (Signal.mk "IF2306" SIG_BUY (Qcabs.Qcabs (num 1)) 1%Z
                            "market" None None None 0%Z None)) _)).
  reflexivity.
Defined.

(** A [generate_signal] that raises (the factory refused the quantity or
    the keyword arguments) leaves the generator as it was: no signal is
    recorded and the reference price does not move. *)
Theorem generate_signal_raise_unmodified (now : time)
    (current_price quantity : Qc) (timestamp : option time)
    (kw : Signal.kwargs) (self self' : SimpleSignalGenerator.t) (e : exn) :
  SimpleSignalGenerator.generate_signal now current_price quantity timestamp
    kw self = (self', Raise e) ->
  self' = self.
Proof.
  unfold SimpleSignalGenerator.generate_signal, bind, get, modify, ret,
    SimpleSignalGenerator.construct, throw.
  destruct (SimpleSignalGenerator.reference_price self) as [reference|];
    [|discriminate].
  destruct (decide (reference * SimpleSignalGenerator.buy_threshold self
                    < current_price)).
  - destruct (Signal.buy_signal _ _ _ _ _) as [signal|e']; cbn;
      [discriminate | now injection 1].
  - destruct (decide (current_price
                      < reference * SimpleSignalGenerator.sell_threshold self)).
    + destruct (Signal.sell_signal _ _ _ _ _) as [signal|e']; cbn;
        [discriminate | now injection 1].
    + discriminate.
Qed.

Lemma generate_signal_raise_unmodified_witness :
  let g := SimpleSignalGenerator.mk (SignalGenerator.init "IF2306")
             (num 2) 0 (Some (num 100)) in
  (SimpleSignalGenerator.generate_signal 1%Z (num 300) 0 None
     Signal.no_kwargs g).1 = g.
Proof.
  intros g.
  apply (generate_signal_raise_unmodified 1%Z (num 300) 0 None
           Signal.no_kwargs g _ (ValueError signal_quantity_zero)).
  reflexivity.
Defined.

(** ** StrategyBase: history and moving average *)

Lemma slice_from_last {A : Type} (count : Z) (l : list A) :
  (0 < count)%Z ->
  slice_from (- count) l = drop (length l - Z.to_nat count) l.
Proof.
  intros Hcount. unfold slice_from.
  rewrite decide_False by lia. now rewrite Z.opp_involutive.
Qed.

(** [_manage_history_size] with a positive bound keeps the most recent
    bars: what it leaves is the end of the history, the bars before it are
    dropped, and its length is the smaller of the bound and the old
    length. *)
Theorem manage_history_size_keeps_recent (max_size : Z)
    (bar_history : list Bar.t) :
  (0 < max_size)%Z ->
  let kept := StrategyBase.manage_history_size max_size bar_history in
  length kept = Nat.min (length bar_history) (Z.to_nat max_size)
  /\ exists dropped, bar_history = dropped ++ kept.
Proof.
  intros Hmax. cbv zeta. unfold StrategyBase.manage_history_size.
  destruct (decide (max_size < Z.of_nat (length bar_history))%Z).
  - rewrite slice_from_last by assumption. split.
    + rewrite length_drop. lia.
    + eexists. symmetry. apply take_drop.
  - split; [lia|]. now exists [].
Qed.

Lemma manage_history_size_keeps_recent_witness :
  let bar := Bar.mk "IF2306" 0%Z (num 100) (num 110) (num 95) (num 105)
               10%Z 20%Z "1min" in
  length (StrategyBase.manage_history_size 2 [bar; bar; bar])
  = Nat.min 3 (Z.to_nat 2).
Proof.
  intros bar.
  apply (manage_history_size_keeps_recent 2 [bar; bar; bar]). reflexivity.
Defined.

Lemma get_history_prices_length (count : Z) (price_type : string)
    (bar_history : list Bar.t) :
  (0 < count)%Z ->
  length (StrategyBase.get_history_prices count price_type bar_history)
  = Nat.min (length bar_history) (Z.to_nat count).
Proof.
  intros Hcount.
  unfold StrategyBase.get_history_prices, StrategyBase.get_history_bars.
  destruct (decide (0 < count)%Z); [|lia].
  rewrite slice_from_last by assumption.
  repeat case_decide; rewrite length_map, length_drop; lia.
Qed.

(** [calculate_sma] with a positive period answers [None] exactly when the
    history has fewer bars than the period. *)
Theorem calculate_sma_none (period : Z) (price_type : string)
    (bar_history : list Bar.t) :
  (0 < period)%Z ->
  StrategyBase.calculate_sma period price_type bar_history = Return None
  <-> (Z.of_nat (length bar_history) < period)%Z.
Proof.
  intros Hperiod. unfold StrategyBase.calculate_sma.
  rewrite get_history_prices_length by assumption.
  split.
  - intros Hnone.
    destruct (decide (Z.of_nat (Nat.min _ _) < period)%Z); [lia|].
    destruct (decide (Nat.min _ _ = 0%nat)); discriminate Hnone.
  - intros Hshort. now rewrite decide_True by lia.
Qed.

Lemma calculate_sma_none_witness :
  StrategyBase.calculate_sma 5 "close" [] = Return None
  <-> (Z.of_nat (length (@nil Bar.t)) < 5)%Z.
Proof.
  apply calculate_sma_none. reflexivity.
Defined.

(** A period that is not positive makes [calculate_sma] average the whole
    history, and divide by zero when the history is empty. *)
Theorem calculate_sma_nonpositive_period (period : Z) (price_type : string)
    (bar_history : list Bar.t) :
  (period <= 0)%Z ->
  StrategyBase.calculate_sma period price_type bar_history
  = match bar_history with
    | [] => Raise ZeroDivisionError
    | _ :: _ =>
        Return (Some (sum_numbers
                        (StrategyBase.get_history_prices period price_type
                           bar_history)
                      / Qc_of_Z (Z.of_nat (length bar_history))))
    end.
Proof.
  intros Hperiod.
  assert (length (StrategyBase.get_history_prices period price_type bar_history)
          = length bar_history) as Hlen.
  { unfold StrategyBase.get_history_prices, StrategyBase.get_history_bars.
    destruct (decide (0 < period)%Z); [lia|].
    repeat case_decide; apply length_map. }
  unfold StrategyBase.calculate_sma. rewrite Hlen.
  rewrite decide_False by lia.
  destruct bar_history; [reflexivity|]. now rewrite decide_False.
Qed.

Lemma calculate_sma_nonpositive_period_witness :
  StrategyBase.calculate_sma 0 "close" [] = Raise ZeroDivisionError.
Proof.
  apply (calculate_sma_nonpositive_period 0 "close" []). reflexivity.
Defined.

(** ** Reduce followed by add, in binary64 *)

Lemma reduce_position_returns_binary64 (now : time) (self : F64Position.t)
    (q p : float) :
  (q <=? 0)%float = false ->
  (F64Position.quantity self <? q)%float = false ->
  F64Position.reduce_position now q p self
  = (F64Position.mk (F64Position.symbol self)
       (if (F64Position.quantity self - q =? 0)%float then FLAT
        else F64Position.side self)
       (F64Position.quantity self - q)%float (F64Position.avg_price self)
       (F64Position.current_price self) now (F64Position.unrealized_pnl self)
       (F64Position.realized_pnl self
        + F64Position.realized_on_reduce q p self)%float,
     Return (F64Position.realized_on_reduce q p self)).
Proof.
  intros Hq Hle.
  unfold F64Position.reduce_position, bind, get, throw, modify, ret.
  rewrite Hq, Hle. cbn.
  destruct (F64Position.quantity self - q =? 0)%float; reflexivity.
Qed.

(** C5 as stated fails on the code's floats: reducing LONG 10 at 100 by 4
    at 110 and adding 4 back at 110 leaves the average price 104, not
    100. *)
Lemma reduce_then_add_moves_avg_price_binary64 :
  ~ (forall now self q p,
        F64Position.side self <> FLAT ->
        (0 <? F64Position.quantity self)%float = true ->
        (0 <? q)%float = true ->
        (q <=? F64Position.quantity self)%float = true ->
        (0 <? p)%float = true ->
        F64Position.quantity (reduce_then_add_binary64 now q p self).1
        = F64Position.quantity self
        /\ F64Position.avg_price (reduce_then_add_binary64 now q p self).1
           = F64Position.avg_price self).
Proof.
  intros claim.
  assert (F64Position.avg_price
            (reduce_then_add_binary64 1%Z 4 110 long_10_at_100_binary64).1
          = F64Position.avg_price long_10_at_100_binary64) as Havg.
  { apply claim; first [discriminate | reflexivity]. }
  apply (f_equal (fun x => (x =? 100)%float)) in Havg.
  vm_compute in Havg. discriminate Havg.
Qed.

(** Nor is the average price restored whenever the price is the cost
    basis, nor the quantity always: 3 at 0.1 reduced by 1 at 0.1 and
    refilled comes back at 0.10000000000000002, and 0.6 reduced by 0.07
    and refilled does not come back to 0.6. *)
Lemma reduce_then_add_drifts_at_cost_basis :
  (F64Position.avg_price
     (reduce_then_add_binary64 1%Z 1 (1 / 10) long_3_at_a_tenth).1
   =? F64Position.avg_price long_3_at_a_tenth)%float = false
  /\ (F64Position.quantity
        (reduce_then_add_binary64 1%Z (7 / 100) 1
           (F64Position.mk "IF2306" LONG (6 / 10) 1 1 0%Z 0 0)).1
      =? 6 / 10)%float = false.
Proof. split; reflexivity. Qed.

Lemma reduce_then_add_binary64_runs (now : time) (self : F64Position.t)
    (q p : float) :
  F64Position.side self <> FLAT ->
  (q <=? 0)%float = false ->
  (F64Position.quantity self <? q)%float = false ->
  reduce_then_add_binary64 now q p self
  = let left := (F64Position.quantity self - q)%float in
    let realized :=
      (F64Position.realized_pnl self
       + F64Position.realized_on_reduce q p self)%float in
    if (left =? 0)%float then
      (F64Position.mk (F64Position.symbol self) FLAT q p
         (F64Position.current_price self) now
         (F64Position.unrealized_pnl self) realized,
       Return tt)
    else if (left + q =? 0)%float then
      (F64Position.mk (F64Position.symbol self) (F64Position.side self)
         (left + q)%float (F64Position.avg_price self)
         (F64Position.current_price self) now
         (F64Position.unrealized_pnl self) realized,
       Raise ZeroDivisionError)
    else
      (F64Position.mk (F64Position.symbol self) (F64Position.side self)
         (left + q)%float
         ((left * F64Position.avg_price self + q * p) / (left + q))%float
         (F64Position.current_price self) now
         (F64Position.unrealized_pnl self) realized,
       Return tt).
Proof.
  intros Hside Hq Hle. cbv zeta.
  unfold reduce_then_add_binary64, bind.
  rewrite reduce_position_returns_binary64 by assumption.
  unfold F64Position.add_position, bind, get, throw, modify, ret, F64.divide,
    F64Position.is_flat, F64Position.cost_value.
  rewrite Hq. cbn.
  destruct (F64Position.quantity self - q =? 0)%float eqn:Hleft.
  - rewrite bool_decide_eq_true_2 by reflexivity. reflexivity.
  - rewrite bool_decide_eq_false_2 by assumption. cbn.
    destruct (F64Position.quantity self - q + q =? 0)%float; reflexivity.
Qed.

(** C5, as the code has it: on a position whose side is LONG or SHORT, for
    a [q] that passes the two guards of [reduce_position],
    [reduce_position(q, p)] followed by [add_position(q, p)] leaves the
    quantity [(quantity - q) + q] at the average price [((quantity - q) *
    avg_price + q * p) / ((quantity - q) + q)], every operation rounded to
    binary64; when [quantity - q] is 0 it leaves quantity [q] at price [p];
    and when [(quantity - q) + q] is 0 the division raises and the average
    price is the one before. *)
Theorem reduce_then_add_leaves (now : time) (self : F64Position.t)
    (q p : float) :
  F64Position.side self <> FLAT ->
  (q <=? 0)%float = false ->
  (F64Position.quantity self <? q)%float = false ->
  let left := (F64Position.quantity self - q)%float in
  (reduce_then_add_binary64 now q p self).2
  = (if (left =? 0)%float then Return tt
     else if (left + q =? 0)%float then Raise ZeroDivisionError
     else Return tt)
  /\ F64Position.quantity (reduce_then_add_binary64 now q p self).1
     = (if (left =? 0)%float then q else (left + q)%float)
  /\ F64Position.avg_price (reduce_then_add_binary64 now q p self).1
     = (if (left =? 0)%float then p
        else if (left + q =? 0)%float then F64Position.avg_price self
        else ((left * F64Position.avg_price self + q * p) / (left + q))%float).
Proof.
  intros Hside Hq Hle. cbv zeta.
  rewrite reduce_then_add_binary64_runs by assumption. cbv zeta.
  destruct (F64Position.quantity self - q =? 0)%float;
    [now repeat split|].
  destruct (F64Position.quantity self - q + q =? 0)%float; now repeat split.
Qed.

Lemma reduce_then_add_leaves_witness :
  (reduce_then_add_binary64 1%Z 4 110 long_10_at_100_binary64).2 = Return tt
  /\ F64Position.quantity
       (reduce_then_add_binary64 1%Z 4 110 long_10_at_100_binary64).1
     = 10%float
  /\ F64Position.avg_price
       (reduce_then_add_binary64 1%Z 4 110 long_10_at_100_binary64).1
     = 104%float.
Proof.
  destruct (reduce_then_add_leaves 1%Z long_10_at_100_binary64 4 110)
    as (Hret & Hqty & Havg); [discriminate | reflexivity | reflexivity |].
  split; [exact Hret|]. split; [exact Hqty | exact Havg].
Defined.
